(** * ClaimsExplanationBot: the extraction-and-summarization pipeline

    A shallow embedding of [claim_explainer_app.py]: the helper functions
    [extract_text_from_pdf], [extract_text_from_image], [summarize_claim],
    [process_claim_file] and the file-upload branch of the Streamlit script.

    Python strings are sequences of Unicode code points, files are byte
    sequences, the third-party models (pdfplumber, DocTR, the transformers
    summarization pipeline) are fields of a [World] record, and every call
    runs in a state-and-exception monad whose state holds the file system,
    the sampler state of the summarization model and the log of the
    capability calls made so far. *)

From stdpp Require Import gmap list strings.
From Stdlib Require Import NArith Lia.
From Stdlib.Strings Require Import Byte.

Local Open Scope N_scope.

(** ** Python strings *)

(** A [str] is a list of code points; [s[:n]] is [take n s]. *)
Abbreviation pystr := (list N).

(** An ASCII literal as a Python string. *)
Definition py (s : string) : pystr :=
  map Ascii.N_of_ascii (String.list_ascii_of_string s).

(** [str.isspace] on one character: the code points CPython treats as
    whitespace (bidirectional class WS, B or S, or category Zs). *)
Definition isspace (c : N) : bool :=
  ((9 <=? c) && (c <=? 13)) || ((28 <=? c) && (c <=? 32))
  || (c =? 133) || (c =? 160) || (c =? 5760)
  || ((8192 <=? c) && (c <=? 8202))
  || (c =? 8232) || (c =? 8233) || (c =? 8239) || (c =? 8287)
  || (c =? 12288).

Fixpoint lstrip (s : pystr) : pystr :=
  match s with
  | [] => []
  | c :: rest => if isspace c then lstrip rest else s
  end.

Definition rstrip (s : pystr) : pystr := rev (lstrip (rev s)).

(** [s.strip()] with no argument. *)
Definition strip (s : pystr) : pystr := rstrip (lstrip s).

(** Truth value of a string in a condition: [if s:]. *)
Definition truthy (s : pystr) : bool :=
  match s with
  | [] => false
  | _ :: _ => true
  end.

(** The words of the specification: "empty or whitespace-only". *)
Definition whitespace_only (s : pystr) : Prop := Forall (λ c, isspace c = true) s.

#[global] Instance whitespace_only_dec (s : pystr) : Decision (whitespace_only s) :=
  Forall_dec (λ c, isspace c = true) s.

(** ** Files and the UTF-8 codec *)

Definition is_continuation (x : N) : bool := (128 <=? x) && (x <=? 191).

Definition is_surrogate (c : N) : bool := (55296 <=? c) && (c <=? 57343).

(** The strict UTF-8 decoder behind [open(..., encoding="utf-8")]:
    [None] stands for [UnicodeDecodeError]. Overlong forms, surrogates,
    code points above U+10FFFF and truncated sequences are rejected. *)
Fixpoint utf8_decode (bs : list byte) : option pystr :=
  match bs with
  | [] => Some []
  | b0 :: r0 =>
    let x0 := Byte.to_N b0 in
    if x0 <? 128 then cons x0 <$> utf8_decode r0
    else if (194 <=? x0) && (x0 <=? 223) then
      match r0 with
      | b1 :: r1 =>
        let x1 := Byte.to_N b1 in
        if is_continuation x1
        then cons ((x0 - 192) * 64 + (x1 - 128)) <$> utf8_decode r1
        else None
      | _ => None
      end
    else if (224 <=? x0) && (x0 <=? 239) then
      match r0 with
      | b1 :: b2 :: r2 =>
        let x1 := Byte.to_N b1 in
        let x2 := Byte.to_N b2 in
        let c := (x0 - 224) * 4096 + (x1 - 128) * 64 + (x2 - 128) in
        if is_continuation x1 && is_continuation x2
           && (2048 <=? c) && negb (is_surrogate c)
        then cons c <$> utf8_decode r2
        else None
      | _ => None
      end
    else if (240 <=? x0) && (x0 <=? 244) then
      match r0 with
      | b1 :: b2 :: b3 :: r3 =>
        let x1 := Byte.to_N b1 in
        let x2 := Byte.to_N b2 in
        let x3 := Byte.to_N b3 in
        let c := (x0 - 240) * 262144 + (x1 - 128) * 4096
                 + (x2 - 128) * 64 + (x3 - 128) in
        if is_continuation x1 && is_continuation x2 && is_continuation x3
           && (65536 <=? c) && (c <=? 1114111)
        then cons c <$> utf8_decode r3
        else None
      | _ => None
      end
    else None
  end.

(** The encoding of one code point, as the UTF-8 standard defines it. *)
Definition utf8_encode_char (c : N) : list N :=
  if c <? 128 then [c]
  else if c <? 2048 then [192 + c / 64; 128 + c mod 64]
  else if c <? 65536 then
    [224 + c / 4096; 128 + (c / 64) mod 64; 128 + c mod 64]
  else
    [240 + c / 262144; 128 + (c / 4096) mod 64;
     128 + (c / 64) mod 64; 128 + c mod 64].

Definition utf8_encode (s : pystr) : list N := flat_map utf8_encode_char s.

(** A Unicode scalar value: at most U+10FFFF and not a surrogate. *)
Definition is_scalar (c : N) : bool := (c <=? 1114111) && negb (is_surrogate c).

(** A byte sequence is valid UTF-8 when it is the encoding of some
    sequence of scalar values. *)
Definition valid_utf8 (bs : list byte) : Prop :=
  ∃ s : pystr, Forall (λ c, is_scalar c = true) s
               ∧ utf8_encode s = map Byte.to_N bs.

(** Text-mode reading with the default [newline=None]: CR LF and a lone
    CR both become LF. *)
Fixpoint universal_newlines (s : pystr) : pystr :=
  match s with
  | [] => []
  | 13 :: rest =>
    match rest with
    | 10 :: rest' => 10 :: universal_newlines rest'
    | _ => 10 :: universal_newlines rest
    end
  | c :: rest => c :: universal_newlines rest
  end.

(** ** Exceptions, capability calls and the machine state *)

Inductive Exn : Type :=
| OSError (path : pystr)        (* open / os.remove on a missing file *)
| UnicodeDecodeError            (* undecodable bytes in text mode *)
| IndexError                    (* [result[0]] on an empty list *)
| KeyError (key : pystr)        (* a missing dictionary key *)
| ModelError (code : N).        (* anything raised inside a third-party model *)

Inductive result (A : Type) : Type :=
| Ok (a : A)
| Raise (e : Exn).
Arguments Ok {A} a.
Arguments Raise {A} e.

Definition raised {A} (r : result A) : option Exn :=
  match r with
  | Ok _ => None
  | Raise e => Some e
  end.

(** Keyword arguments of the summarization pipeline. *)
Record GenArgs : Type := {
  max_length : N;
  min_length : N;
  do_sample : bool
}.

Inductive OcrSource : Type := FromPdf | FromImages.

(** One call into a third-party capability, or one widget shown. *)
Inductive Call : Type :=
| TextLayer (path : pystr)                  (* pdfplumber.open, page.extract_text *)
| Ocr (src : OcrSource) (path : pystr)      (* DocumentFile.from_*, ocr_model, render *)
| Summarizer (text : pystr) (args : GenArgs)
| StInfo (name : pystr)
| StWarning
| StSuccess
| StResultBox (summary : pystr).

(** A logged call together with the exception it raised, if any. *)
Record Event : Type := {
  ev_call : Call;
  ev_raised : option Exn
}.

Definition is_ocr_call (c : Call) : bool :=
  match c with
  | Ocr _ _ => true
  | _ => false
  end.

Definition is_summarizer_call (c : Call) : bool :=
  match c with
  | Summarizer _ _ => true
  | _ => false
  end.

(** The OCR and summarization models. *)
Definition is_model_call (c : Call) : bool :=
  is_ocr_call c || is_summarizer_call c.

Record State : Type := {
  fs : gmap (list N) (list byte);   (* path to file content *)
  rng : N;                          (* sampler state of the summarization model *)
  trace : list Event                (* calls made so far, oldest first *)
}.

(** What lies outside the repository: the interpreter's path and case
    tables and the pretrained models. *)
Record World : Type := {
  (** [Path(p).suffix] *)
  path_suffix : pystr → pystr;
  (** [s.lower()] *)
  str_lower : pystr → pystr;
  (** [pdfplumber.open(p).pages], each with [extract_text()] applied *)
  pdfplumber_pages : gmap (list N) (list byte) → pystr → result (list (option pystr));
  (** [ocr_model(DocumentFile.from_pdf(p)).render()] *)
  ocr_pdf : gmap (list N) (list byte) → pystr → result pystr;
  (** [ocr_model(DocumentFile.from_images(p)).render()] *)
  ocr_images : gmap (list N) (list byte) → pystr → result pystr;
  (** [summarizer(text, **args)]: a list of dictionaries, and the next
      sampler state *)
  summarizer : N → pystr → GenArgs → N * result (list (gmap (list N) (list N)));
  (** the path [tempfile.NamedTemporaryFile] picks for a suffix *)
  mkstemp : gmap (list N) (list byte) → pystr → pystr
}.

(** ** The monad of the script *)

Definition M (A : Type) : Type := State → State * result A.

#[global] Instance M_ret : MRet M := λ A a s, (s, Ok a).

#[global] Instance M_bind : MBind M := λ A B k c s,
  match c s with
  | (s', Ok a) => k a s'
  | (s', Raise e) => (s', Raise e)
  end.

Definition raise {A} (e : Exn) : M A := λ s, (s, Raise e).

Definition log (c : Call) (e : option Exn) (s : State) : State :=
  {| fs := fs s; rng := rng s;
     trace := trace s ++ [{| ev_call := c; ev_raised := e |}] |}.

Definition set_fs (f : gmap (list N) (list byte)) (s : State) : State :=
  {| fs := f; rng := rng s; trace := trace s |}.

Definition set_rng (r : N) (s : State) : State :=
  {| fs := fs s; rng := r; trace := trace s |}.

(** [l[0]] *)
Definition first_item {A} (l : list A) : M A :=
  match l with
  | [] => raise IndexError
  | x :: _ => mret x
  end.

(** [d[key]] *)
Definition getitem (d : gmap (list N) (list N)) (key : pystr) : M pystr :=
  match d !! key with
  | Some v => mret v
  | None => raise (KeyError key)
  end.

(** ** Sentinel messages *)

(** U+26A0 U+FE0F, the warning sign that opens every sentinel. *)
Definition warning_sign : pystr := [9888; 65039].

Definition msg_no_text : pystr :=
  warning_sign ++ py " No text detected in the document.".

Definition msg_unsupported : pystr :=
  warning_sign ++ py " Unsupported file type.".

Definition msg_unreadable : pystr :=
  warning_sign ++ py " Could not extract any readable text.".

(** ** The helper functions *)

(** The loop over [pdf.pages]: [if page_text: text += page_text]. *)
Fixpoint add_pages (pages : list (option pystr)) (text : pystr) : pystr :=
  match pages with
  | [] => text
  | page_text :: rest =>
    match page_text with
    | Some t => if truthy t then add_pages rest (text ++ t) else add_pages rest text
    | None => add_pages rest text
    end
  end.

(** The words of the specification: the per-page text concatenated in
    document order, a page without text contributing nothing. *)
Definition text_layer (pages : list (option pystr)) : pystr :=
  concat (map (default []) pages).

Section Pipeline.

Context (w : World).

Definition call_pdfplumber (pdf_path : pystr) : M (list (option pystr)) := λ s,
  let r := pdfplumber_pages w (fs s) pdf_path in
  (log (TextLayer pdf_path) (raised r) s, r).

Definition call_ocr (src : OcrSource) (path : pystr) : M pystr := λ s,
  let r := match src with
           | FromPdf => ocr_pdf w (fs s) path
           | FromImages => ocr_images w (fs s) path
           end in
  (log (Ocr src path) (raised r) s, r).

Definition call_summarizer (text : pystr) (args : GenArgs)
  : M (list (gmap (list N) (list N))) := λ s,
  let '(r', r) := summarizer w (rng s) text args in
  (log (Summarizer text args) (raised r) (set_rng r' s), r).

(** [open(file_path, "r", encoding="utf-8")] and [f.read()]. *)
Definition read_text (file_path : pystr) : M pystr := λ s,
  match fs s !! file_path with
  | None => (s, Raise (OSError file_path))
  | Some bytes =>
    match utf8_decode bytes with
    | None => (s, Raise UnicodeDecodeError)
    | Some text => (s, Ok (universal_newlines text))
    end
  end.

Definition extract_text_from_pdf (pdf_path : pystr) : M pystr :=
  pages ← call_pdfplumber pdf_path;
  let text := add_pages pages [] in
  if truthy (strip text) then mret (strip text)
  else
    (* Fallback to OCR if PDF text not selectable *)
    call_ocr FromPdf pdf_path.

Definition extract_text_from_image (image_path : pystr) : M pystr :=
  call_ocr FromImages image_path.

Definition summarize_claim (text : pystr) : M pystr :=
  if negb (truthy (strip text)) then mret msg_no_text
  else
    let text := take 3000 text in  (* avoid model limit overflow *)
    result ← call_summarizer text
               {| max_length := 130; min_length := 40; do_sample := false |};
    item ← first_item result;
    summary_text ← getitem item (py "summary_text");
    mret (strip summary_text).

(** Lines 123 to 125, where the three supported branches meet. *)
Definition summarize_extracted (raw_text : pystr) : M pystr :=
  if negb (truthy (strip raw_text)) then mret msg_unreadable
  else summarize_claim raw_text.

Definition process_claim_file (file_path : pystr) : M pystr :=
  let file_ext := str_lower w (path_suffix w file_path) in
  if decide (file_ext = py ".pdf") then
    raw_text ← extract_text_from_pdf file_path;
    summarize_extracted raw_text
  else if decide (file_ext ∈ [py ".jpg"; py ".jpeg"; py ".png"]) then
    raw_text ← extract_text_from_image file_path;
    summarize_extracted raw_text
  else if decide (file_ext = py ".txt") then
    raw_text ← read_text file_path;
    summarize_extracted raw_text
  else mret msg_unsupported.

(** ** The Streamlit script, lines 134 to 162 *)

Record UploadedFile : Type := {
  up_name : pystr;
  up_bytes : list byte
}.

(** [tempfile.NamedTemporaryFile(delete=False, suffix=suffix).name]: the
    file is created empty and outlives the file object. *)
Definition named_temporary_file (suffix : pystr) : M pystr := λ s,
  let name := mkstemp w (fs s) suffix in
  (set_fs (<[name := []]> (fs s)) s, Ok name).

(** [with open(path, "wb") as f: f.write(data)] *)
Definition write_bytes (path : pystr) (data : list byte) : M unit := λ s,
  (set_fs (<[path := data]> (fs s)) s, Ok tt).

Definition os_remove (path : pystr) : M unit := λ s,
  match fs s !! path with
  | None => (s, Raise (OSError path))
  | Some _ => (set_fs (delete path (fs s)) s, Ok tt)
  end.

(** A widget call; the log keeps the value interpolated into its text. *)
Definition st (c : Call) : M unit := λ s, (log c None s, Ok tt).

Definition text_branch (claim_text : pystr) (button : bool) : M unit :=
  if button then
    if truthy (strip claim_text) then
      summary ← summarize_claim claim_text;
      st StSuccess;;
      st (StResultBox summary)
    else st StWarning
  else mret tt.

Definition upload_branch (uploaded_file : option UploadedFile) (button : bool)
  : M unit :=
  match uploaded_file with
  | None => mret tt
  | Some f =>
    let suffix := path_suffix w (up_name f) in
    temp_path ← named_temporary_file suffix;
    write_bytes temp_path (up_bytes f);;
    st (StInfo (up_name f));;
    (if button then
       summary ← process_claim_file temp_path;
       st StSuccess;;
       st (StResultBox summary)
     else mret tt);;
    os_remove temp_path
  end.

(** ** Definitions used to state the properties *)

(** The first half of [process_claim_file], lines 112 to 121: the text
    recovered from the file, or [None] for an unsupported suffix. *)
Definition extract_raw_text (file_path : pystr) : M (option pystr) :=
  let file_ext := str_lower w (path_suffix w file_path) in
  if decide (file_ext = py ".pdf") then
    raw_text ← extract_text_from_pdf file_path; mret (Some raw_text)
  else if decide (file_ext ∈ [py ".jpg"; py ".jpeg"; py ".png"]) then
    raw_text ← extract_text_from_image file_path; mret (Some raw_text)
  else if decide (file_ext = py ".txt") then
    raw_text ← read_text file_path; mret (Some raw_text)
  else mret None.

(** [summarize_claim] without its guard, lines 106 to 108. *)
Definition model_summary (text : pystr) : M pystr :=
  result ← call_summarizer (take 3000 text)
             {| max_length := 130; min_length := 40; do_sample := false |};
  item ← first_item result;
  summary_text ← getitem item (py "summary_text");
  mret (strip summary_text).

(** [process_claim_file] with the call of [summarize_claim] replaced by
    a call of [summarize]. *)
Definition process_with (summarize : pystr → M pystr) (file_path : pystr)
  : M pystr :=
  extracted ← extract_raw_text file_path;
  match extracted with
  | None => mret msg_unsupported
  | Some raw_text =>
    if negb (truthy (strip raw_text)) then mret msg_unreadable
    else summarize raw_text
  end.

End Pipeline.

(** The arguments [summarize_claim] passes to the summarizer. *)
Definition summary_args : GenArgs :=
  {| max_length := 130; min_length := 40; do_sample := false |}.

(** What [summarize_claim] makes of the summarizer's answer:
    [result[0]['summary_text'].strip()]. *)
Definition summary_of (r : result (list (gmap (list N) (list N)))) : result pystr :=
  match r with
  | Raise e => Raise e
  | Ok [] => Raise IndexError
  | Ok (item :: _) =>
    match item !! py "summary_text" with
    | None => Raise (KeyError (py "summary_text"))
    | Some t => Ok (strip t)
    end
  end.

(** A computation that leaves the files alone and logs only events
    satisfying [P]. *)
Definition emits {A} (P : Event → Prop) (c : M A) : Prop :=
  ∀ s, fs (c s).1 = fs s
       ∧ ∃ evs, trace (c s).1 = trace s ++ evs ∧ Forall P evs.

(** A computation in which no failure of a model is swallowed: when a
    logged OCR or summarizer call raised, the computation raised the
    same exception. *)
Definition propagates {A} (c : M A) : Prop :=
  ∀ s, ∃ evs, trace (c s).1 = trace s ++ evs
       ∧ ∀ ev e, ev ∈ evs → is_model_call (ev_call ev) = true →
                 ev_raised ev = Some e → (c s).2 = Raise e.

(** The events a run appended to the log. *)
Definition new_events (s s' : State) : list Event :=
  drop (length (trace s)) (trace s').

(** ** A small concrete world, for running the pipeline *)

(** [PurePosixPath(p).name]: the last component that is neither empty
    nor a single dot. *)
Fixpoint posix_name_aux (p : pystr) (cur last : pystr) : pystr :=
  let close := if decide (cur = [] ∨ cur = [46]) then last else cur in
  match p with
  | [] => close
  | c :: rest =>
    if c =? 47 then posix_name_aux rest [] close
    else posix_name_aux rest (cur ++ [c]) last
  end.

Definition posix_name (p : pystr) : pystr := posix_name_aux p [] [].

(** [name.rfind('.')] *)
Fixpoint rfind_dot (name : pystr) (i : nat) (found : option nat) : option nat :=
  match name with
  | [] => found
  | c :: rest => rfind_dot rest (S i) (if c =? 46 then Some i else found)
  end.

(** [PurePosixPath(p).suffix] as CPython 3.8 to 3.13 compute it. *)
Definition posix_suffix (p : pystr) : pystr :=
  let name := posix_name p in
  match rfind_dot name 0%nat None with
  | Some i =>
    if ((0 <? i)%nat && (i <? length name - 1)%nat)%bool then drop i name else []
  | None => []
  end.

(** Lower-casing of the ASCII letters. *)
Definition ascii_lower (s : pystr) : pystr :=
  map (λ c, if (65 <=? c) && (c <=? 90) then c + 32 else c) s.

(** A world whose models answer with fixed values; with sampling the
    summarizer's answer depends on the sampler state. *)
Definition fixed_world (pages : result (list (option pystr)))
    (ocr : result pystr) (summary : result (list (gmap (list N) (list N))))
  : World :=
  {| path_suffix := posix_suffix;
     str_lower := ascii_lower;
     pdfplumber_pages := λ _ _, pages;
     ocr_pdf := λ _ _, ocr;
     ocr_images := λ _ _, ocr;
     summarizer := λ r _ args,
       if do_sample args
       then (r + 1, Ok [ {[ py "summary_text" := [48 + r mod 10] ]} ])
       else (r, summary);
     mkstemp := λ _ suffix, py "/tmp/tmpk3v9x_a1" ++ suffix |}.

Definition one_summary (text : pystr) : result (list (gmap (list N) (list N))) :=
  Ok [ {[ py "summary_text" := text ]} ].

Definition empty_state : State := {| fs := ∅; rng := 0; trace := [] |}.

Definition with_file (path : pystr) (data : list byte) (s : State) : State :=
  set_fs (<[path := data]> (fs s)) s.

(** The state in which the upload branch calls [process_claim_file]:
    the temporary file exists and holds the uploaded bytes. *)
Definition staged (w : World) (f : UploadedFile) (s : State) : State :=
  let temp_path := mkstemp w (fs s) (path_suffix w (up_name f)) in
  log (StInfo (up_name f)) None
    (set_fs (<[temp_path := up_bytes f]> (<[temp_path := []]> (fs s))) s).

(** An upload in Latin-1: the byte 0xE9 alone is not valid UTF-8. *)
Definition latin1_upload : UploadedFile :=
  {| up_name := py "claim.txt"; up_bytes := ["c"; "a"; "f"; xe9]%byte |}.

Definition spaces_3000 : pystr := replicate 3000 32.

(** ** Proof automation for comparisons on code points *)

(** Boolean comparisons among the hypotheses become propositions. *)
Ltac bool_to_prop :=
  repeat match goal with
  | H : _ && _ = true |- _ => apply andb_prop in H as [? ?]
  | H : negb _ = true |- _ => apply negb_true_iff in H
  | H : _ && _ = false |- _ => apply andb_false_iff in H
  | H : (_ <=? _) = true |- _ => apply N.leb_le in H
  | H : (_ <=? _) = false |- _ => apply N.leb_gt in H
  | H : (_ <? _) = true |- _ => apply N.ltb_lt in H
  | H : (_ <? _) = false |- _ => apply N.ltb_ge in H
  end.

(** Settles a goal by cases on the comparisons that occur in it. *)
Ltac decide_cmp :=
  repeat first [ case N.ltb_spec; intros | case N.leb_spec; intros ];
  simpl; try reflexivity; try lia.

(** Rewrites a condition that the bounds at hand decide. *)
Ltac cond_true c :=
  let H := fresh in assert (c = true) as H by decide_cmp; rewrite H; clear H.
Ltac cond_false c :=
  let H := fresh in assert (c = false) as H by decide_cmp; rewrite H; clear H.

(** ** Running the model *)

Example posix_suffix_pdf : posix_suffix (py "/tmp/claims/Report.v2.PDF") = py ".PDF".
Proof. reflexivity. Qed.

Example posix_suffix_hidden : posix_suffix (py "/home/u/.bashrc") = [].
Proof. reflexivity. Qed.

Example posix_suffix_dir : posix_suffix (py "scan.d/photo.jpeg/") = py ".jpeg".
Proof. reflexivity. Qed.

Example strip_example : strip (py "  a b" ++ [10; 160]) = py "a b".
Proof. reflexivity. Qed.

Example utf8_decode_example :
  utf8_decode ["a"; xe2; x9a; xa0; xf0; x9f; xa7; xbe]%byte = Some [97; 9888; 129534].
Proof. reflexivity. Qed.

Example universal_newlines_example :
  universal_newlines [97; 13; 10; 98; 13; 99; 10; 13] = [97; 10; 98; 10; 99; 10; 10].
Proof. reflexivity. Qed.

Example utf8_decode_overlong : utf8_decode [xc0; x80]%byte = None.
Proof. reflexivity. Qed.

Example utf8_decode_surrogate : utf8_decode [xed; xa0; x80]%byte = None.
Proof. reflexivity. Qed.

Example run_txt :
  let w := fixed_world (Ok []) (Ok []) (one_summary (py " Minor collision. ")) in
  let s := with_file (py "c.txt") ["h"; "i"]%byte empty_state in
  snd (process_claim_file w (py "c.txt") s) = Ok (py "Minor collision.").
Proof. vm_compute. reflexivity. Qed.

(** ** Strings: what [strip] leaves *)

Lemma lstrip_head s c rest : lstrip s = c :: rest → isspace c = false.
Proof.
  induction s as [|a s IH]; simpl; [discriminate|].
  destruct (isspace a) eqn:Ha; [exact IH|].
  intros [= <- _]. exact Ha.
Qed.

Lemma lstrip_nil_iff s : lstrip s = [] ↔ whitespace_only s.
Proof.
  unfold whitespace_only. induction s as [|a s IH]; simpl.
  - split; [constructor | reflexivity].
  - destruct (isspace a) eqn:Ha.
    + rewrite IH. split; [by constructor | by inversion 1].
    + split; [discriminate | inversion 1; congruence].
Qed.

Lemma whitespace_only_rev s : whitespace_only (rev s) ↔ whitespace_only s.
Proof.
  unfold whitespace_only. split; intros H.
  - rewrite <- (rev_involutive s). by apply List.Forall_rev.
  - by apply List.Forall_rev.
Qed.

Lemma strip_nil_iff s : strip s = [] ↔ whitespace_only s.
Proof.
  unfold strip, rstrip. split.
  - intros H. apply lstrip_nil_iff.
    assert (Hr : lstrip (rev (lstrip s)) = []).
    { rewrite <- (rev_involutive (lstrip (rev (lstrip s)))), H. reflexivity. }
    apply lstrip_nil_iff, whitespace_only_rev in Hr.
    destruct (lstrip s) as [|c rest] eqn:E; [reflexivity|].
    apply lstrip_head in E. unfold whitespace_only in Hr.
    rewrite rev_involutive in Hr.
    apply Forall_cons in Hr as [Hc _]. congruence.
  - intros H. apply lstrip_nil_iff in H. rewrite H. reflexivity.
Qed.

Lemma truthy_false_iff s : truthy s = false ↔ s = [].
Proof. destruct s; simpl; split; congruence. Qed.

Lemma truthy_strip_false s : truthy (strip s) = false ↔ whitespace_only s.
Proof. rewrite truthy_false_iff. apply strip_nil_iff. Qed.

Lemma truthy_strip_true s : truthy (strip s) = true ↔ ¬ whitespace_only s.
Proof.
  rewrite <- truthy_strip_false. destruct (truthy (strip s)); split; congruence.
Qed.

(** ** The page loop is concatenation in document order *)

Lemma add_pages_text_layer pages text :
  add_pages pages text = text ++ text_layer pages.
Proof.
  revert text. unfold text_layer.
  induction pages as [|[t|] pages IH]; intros text; simpl.
  - by rewrite app_nil_r.
  - destruct t as [|c t]; simpl.
    + apply IH.
    + rewrite IH. by rewrite <- app_assoc.
  - apply IH.
Qed.

Lemma add_pages_from_empty pages : add_pages pages [] = text_layer pages.
Proof. apply add_pages_text_layer. Qed.

(** ** The decoder accepts only encodings of scalar values *)

Lemma split64 q r : r < 64 → (q * 64 + r) / 64 = q ∧ (q * 64 + r) mod 64 = r.
Proof.
  intros Hr. split; symmetry.
  - apply (N.div_unique _ 64 q r); lia.
  - apply (N.mod_unique _ 64 q r); lia.
Qed.

Lemma div_4096 c : c / 4096 = c / 64 / 64.
Proof. by rewrite N.Div0.div_div. Qed.

Lemma div_262144 c : c / 262144 = c / 64 / 64 / 64.
Proof. by rewrite !N.Div0.div_div. Qed.

Lemma encode_one x : x < 128 → utf8_encode_char x = [x] ∧ is_scalar x = true.
Proof.
  intros H. unfold utf8_encode_char, is_scalar, is_surrogate. split; decide_cmp.
Qed.

Lemma encode_two x0 x1 :
  194 ≤ x0 → x0 ≤ 223 → is_continuation x1 = true →
  utf8_encode_char ((x0 - 192) * 64 + (x1 - 128)) = [x0; x1]
  ∧ is_scalar ((x0 - 192) * 64 + (x1 - 128)) = true.
Proof.
  unfold is_continuation. intros H0 H0' H1. bool_to_prop.
  destruct (split64 (x0 - 192) (x1 - 128)) as [Hq Hr]; [lia|].
  split.
  - unfold utf8_encode_char. rewrite Hq, Hr. decide_cmp. f_equal; [lia|f_equal; lia].
  - unfold is_scalar, is_surrogate. decide_cmp.
Qed.

Lemma encode_three x0 x1 x2 :
  224 ≤ x0 → x0 ≤ 239 →
  is_continuation x1 = true → is_continuation x2 = true →
  2048 ≤ (x0 - 224) * 4096 + (x1 - 128) * 64 + (x2 - 128) →
  is_surrogate ((x0 - 224) * 4096 + (x1 - 128) * 64 + (x2 - 128)) = false →
  utf8_encode_char ((x0 - 224) * 4096 + (x1 - 128) * 64 + (x2 - 128)) = [x0; x1; x2]
  ∧ is_scalar ((x0 - 224) * 4096 + (x1 - 128) * 64 + (x2 - 128)) = true.
Proof.
  unfold is_continuation. intros H0 H0' H1 H2 Hmin Hsur. bool_to_prop.
  split.
  - unfold utf8_encode_char. decide_cmp.
    replace ((x0 - 224) * 4096 + (x1 - 128) * 64 + (x2 - 128))
      with (((x0 - 224) * 64 + (x1 - 128)) * 64 + (x2 - 128)) by lia.
    rewrite div_4096.
    destruct (split64 ((x0 - 224) * 64 + (x1 - 128)) (x2 - 128)) as [-> ->]; [lia|].
    destruct (split64 (x0 - 224) (x1 - 128)) as [-> ->]; [lia|].
    f_equal; [lia|f_equal; [lia|f_equal; lia]].
  - unfold is_scalar. rewrite Hsur. decide_cmp.
Qed.

Lemma encode_four x0 x1 x2 x3 :
  240 ≤ x0 → x0 ≤ 244 →
  is_continuation x1 = true → is_continuation x2 = true →
  is_continuation x3 = true →
  65536 ≤ (x0 - 240) * 262144 + (x1 - 128) * 4096 + (x2 - 128) * 64 + (x3 - 128) →
  (x0 - 240) * 262144 + (x1 - 128) * 4096 + (x2 - 128) * 64 + (x3 - 128) ≤ 1114111 →
  utf8_encode_char
    ((x0 - 240) * 262144 + (x1 - 128) * 4096 + (x2 - 128) * 64 + (x3 - 128))
  = [x0; x1; x2; x3]
  ∧ is_scalar
      ((x0 - 240) * 262144 + (x1 - 128) * 4096 + (x2 - 128) * 64 + (x3 - 128))
    = true.
Proof.
  unfold is_continuation. intros H0 H0' H1 H2 H3 Hmin Hmax. bool_to_prop.
  split.
  - unfold utf8_encode_char. decide_cmp.
    replace ((x0 - 240) * 262144 + (x1 - 128) * 4096 + (x2 - 128) * 64 + (x3 - 128))
      with ((((x0 - 240) * 64 + (x1 - 128)) * 64 + (x2 - 128)) * 64 + (x3 - 128))
      by lia.
    rewrite div_262144, div_4096.
    destruct (split64 (((x0 - 240) * 64 + (x1 - 128)) * 64 + (x2 - 128)) (x3 - 128))
      as [-> ->]; [lia|].
    destruct (split64 ((x0 - 240) * 64 + (x1 - 128)) (x2 - 128)) as [-> ->]; [lia|].
    destruct (split64 (x0 - 240) (x1 - 128)) as [-> ->]; [lia|].
    f_equal; [lia|f_equal; [lia|f_equal; [lia|f_equal; lia]]].
  - unfold is_scalar, is_surrogate. decide_cmp.
Qed.

Lemma utf8_decode_sound_upto (n : nat) :
  ∀ (bs : list byte) (s : pystr),
    (length bs ≤ n)%nat → utf8_decode bs = Some s →
    Forall (λ c, is_scalar c = true) s ∧ utf8_encode s = map Byte.to_N bs.
Proof.
  induction n as [|n IH]; intros bs s Hlen.
  { destruct bs; [|simpl in Hlen; lia]. intros [= <-]. by split. }
  destruct bs as [|b0 r0]; [intros [= <-]; by split|].
  simpl in Hlen. cbn [utf8_decode]. cbv zeta.
  destruct (Byte.to_N b0 <? 128) eqn:E1.
  { destruct (utf8_decode r0) as [t|] eqn:D; [|discriminate].
    intros [= <-]. bool_to_prop.
    destruct (IH r0 t ltac:(lia) D) as [Hs He].
    destruct (encode_one _ E1) as [Hc Hv].
    split; [by constructor|]. unfold utf8_encode in *. simpl.
    by rewrite Hc, He. }
  destruct ((194 <=? Byte.to_N b0) && (Byte.to_N b0 <=? 223)) eqn:E2.
  { destruct r0 as [|b1 r1]; [discriminate|].
    destruct (is_continuation (Byte.to_N b1)) eqn:C1; [|discriminate].
    destruct (utf8_decode r1) as [t|] eqn:D; [|discriminate].
    intros [= <-]. bool_to_prop. simpl in Hlen.
    destruct (IH r1 t ltac:(lia) D) as [Hs He].
    destruct (encode_two (Byte.to_N b0) (Byte.to_N b1)) as [Hc Hv]; [done..|].
    split; [by constructor|]. unfold utf8_encode in *.
    cbn [flat_map map]. by rewrite Hc, He. }
  destruct ((224 <=? Byte.to_N b0) && (Byte.to_N b0 <=? 239)) eqn:E3.
  { destruct r0 as [|b1 [|b2 r2]]; [discriminate..|].
    match goal with |- (if ?c then _ else _) = _ → _ => destruct c eqn:C end;
      [|discriminate].
    destruct (utf8_decode r2) as [t|] eqn:D; [|discriminate].
    intros [= <-]. bool_to_prop. simpl in Hlen.
    destruct (IH r2 t ltac:(lia) D) as [Hs He].
    destruct (encode_three (Byte.to_N b0) (Byte.to_N b1) (Byte.to_N b2))
      as [Hc Hv]; [done..|].
    split; [by constructor|]. unfold utf8_encode in *.
    cbn [flat_map map]. by rewrite Hc, He. }
  destruct ((240 <=? Byte.to_N b0) && (Byte.to_N b0 <=? 244)) eqn:E4; [|discriminate].
  destruct r0 as [|b1 [|b2 [|b3 r3]]]; [discriminate..|].
  match goal with |- (if ?c then _ else _) = _ → _ => destruct c eqn:C end;
    [|discriminate].
  destruct (utf8_decode r3) as [t|] eqn:D; [|discriminate].
  intros [= <-]. bool_to_prop. simpl in Hlen.
  destruct (IH r3 t ltac:(lia) D) as [Hs He].
  destruct (encode_four (Byte.to_N b0) (Byte.to_N b1) (Byte.to_N b2) (Byte.to_N b3))
    as [Hc Hv]; [done..|].
  split; [by constructor|]. unfold utf8_encode in *.
  cbn [flat_map map]. by rewrite Hc, He.
Qed.

Lemma utf8_decode_sound bs s :
  utf8_decode bs = Some s →
  Forall (λ c, is_scalar c = true) s ∧ utf8_encode s = map Byte.to_N bs.
Proof. apply (utf8_decode_sound_upto (length bs)). lia. Qed.

Lemma utf8_decode_valid bs s : utf8_decode bs = Some s → valid_utf8 bs.
Proof. intros H. exists s. by apply utf8_decode_sound. Qed.

(** ** The decoder accepts every encoding of scalar values *)

Lemma digits64 c : c = 64 * (c / 64) + c mod 64 ∧ c mod 64 < 64.
Proof. split; [apply N.div_mod; lia | apply N.mod_lt; lia]. Qed.

Lemma utf8_decode_step c bs rest :
  is_scalar c = true →
  map Byte.to_N bs = utf8_encode_char c →
  utf8_decode (bs ++ rest) = cons c <$> utf8_decode rest.
Proof.
  unfold is_scalar, is_surrogate, utf8_encode_char.
  intros [Hmax Hsur]%andb_prop.
  apply N.leb_le in Hmax. apply negb_true_iff in Hsur.
  destruct (digits64 c) as [E0 R0].
  destruct (digits64 (c / 64)) as [E1 R1].
  destruct (digits64 (c / 64 / 64)) as [E2 R2].
  rewrite div_262144, div_4096.
  set (q0 := c / 64) in *. set (r0 := c mod 64) in *.
  set (q1 := q0 / 64) in *. set (r1 := q0 mod 64) in *.
  set (q2 := q1 / 64) in *. set (r2 := q1 mod 64) in *.
  case N.ltb_spec; intros L1;
    [|case N.ltb_spec; intros L2; [|case N.ltb_spec; intros L3]].
  - destruct bs as [|b0 [|? ?]]; try discriminate. intros [= Hb0].
    cbn [app utf8_decode]. cbv zeta. rewrite Hb0.
    cond_true (c <? 128). reflexivity.
  - destruct bs as [|b0 [|b1 [|? ?]]]; try discriminate. intros [= Hb0 Hb1].
    cbn [app utf8_decode]. cbv zeta. unfold is_continuation. rewrite Hb0, Hb1.
    cond_false (192 + q0 <? 128).
    cond_true ((194 <=? 192 + q0) && (192 + q0 <=? 223)).
    cond_true ((128 <=? 128 + r0) && (128 + r0 <=? 191)).
    replace ((192 + q0 - 192) * 64 + (128 + r0 - 128)) with c by lia.
    reflexivity.
  - destruct bs as [|b0 [|b1 [|b2 [|? ?]]]]; try discriminate.
    intros [= Hb0 Hb1 Hb2].
    cbn [app utf8_decode]. cbv zeta. unfold is_continuation, is_surrogate.
    rewrite Hb0, Hb1, Hb2.
    replace ((224 + q1 - 224) * 4096 + (128 + r1 - 128) * 64 + (128 + r0 - 128))
      with c by lia.
    rewrite Hsur.
    cond_false (224 + q1 <? 128).
    cond_false ((194 <=? 224 + q1) && (224 + q1 <=? 223)).
    cond_true ((224 <=? 224 + q1) && (224 + q1 <=? 239)).
    cond_true ((128 <=? 128 + r1) && (128 + r1 <=? 191)).
    cond_true ((128 <=? 128 + r0) && (128 + r0 <=? 191)).
    cond_true (2048 <=? c).
    reflexivity.
  - destruct bs as [|b0 [|b1 [|b2 [|b3 [|? ?]]]]]; try discriminate.
    intros [= Hb0 Hb1 Hb2 Hb3].
    cbn [app utf8_decode]. cbv zeta. unfold is_continuation.
    rewrite Hb0, Hb1, Hb2, Hb3.
    replace ((240 + q2 - 240) * 262144 + (128 + r2 - 128) * 4096
             + (128 + r1 - 128) * 64 + (128 + r0 - 128))
      with c by lia.
    cond_false (240 + q2 <? 128).
    cond_false ((194 <=? 240 + q2) && (240 + q2 <=? 223)).
    cond_false ((224 <=? 240 + q2) && (240 + q2 <=? 239)).
    cond_true ((240 <=? 240 + q2) && (240 + q2 <=? 244)).
    cond_true ((128 <=? 128 + r2) && (128 + r2 <=? 191)).
    cond_true ((128 <=? 128 + r1) && (128 + r1 <=? 191)).
    cond_true ((128 <=? 128 + r0) && (128 + r0 <=? 191)).
    cond_true (65536 <=? c). cond_true (c <=? 1114111).
    reflexivity.
Qed.

Lemma utf8_decode_complete s :
  Forall (λ c, is_scalar c = true) s →
  ∀ bs, utf8_encode s = map Byte.to_N bs → utf8_decode bs = Some s.
Proof.
  induction 1 as [|c s Hc Hs IH]; intros bs; unfold utf8_encode; simpl.
  - destruct bs; [done|discriminate].
  - intros Hbs. symmetry in Hbs.
    apply List.map_eq_app in Hbs as (b1 & b2 & -> & Hb1 & Hb2).
    rewrite (utf8_decode_step c b1 b2 Hc Hb1).
    by rewrite (IH b2 (eq_sym Hb2)).
Qed.

Lemma valid_utf8_decodes bs : valid_utf8 bs ↔ is_Some (utf8_decode bs).
Proof.
  split.
  - intros (s & Hs & He). exists s. by apply utf8_decode_complete.
  - intros [s Hs]. by apply (utf8_decode_valid _ s).
Qed.

Lemma decode_error_invalid bs : utf8_decode bs = None → ¬ valid_utf8 bs.
Proof.
  intros Hd [s Hs]%valid_utf8_decodes. congruence.
Qed.

(** ** Running one step of the monad *)

Lemma bind_run {A B} (c : M A) (k : A → M B) (s : State) :
  (c ≫= k) s = match c s with
               | (s', Ok a) => k a s'
               | (s', Raise e) => (s', Raise e)
               end.
Proof. reflexivity. Qed.

Lemma new_events_refl s : new_events s s = [].
Proof. unfold new_events. by rewrite drop_all. Qed.

Lemma new_events_log s c e :
  new_events s (log c e s) = [{| ev_call := c; ev_raised := e |}].
Proof. unfold new_events, log. simpl. by rewrite drop_app_length. Qed.

Lemma new_events_log2 s c1 e1 c2 e2 :
  new_events s (log c2 e2 (log c1 e1 s))
  = [{| ev_call := c1; ev_raised := e1 |}; {| ev_call := c2; ev_raised := e2 |}].
Proof.
  unfold new_events, log. simpl. by rewrite <- app_assoc, drop_app_length.
Qed.

(** ** The PDF dispatcher *)

Section PdfDispatcher.

Context (w : World).

Lemma extract_text_from_pdf_run pdf_path s :
  extract_text_from_pdf w pdf_path s
  = match pdfplumber_pages w (fs s) pdf_path with
    | Raise e => (log (TextLayer pdf_path) (Some e) s, Raise e)
    | Ok pages =>
      let s1 := log (TextLayer pdf_path) None s in
      if decide (whitespace_only (text_layer pages))
      then (log (Ocr FromPdf pdf_path) (raised (ocr_pdf w (fs s) pdf_path)) s1,
            ocr_pdf w (fs s) pdf_path)
      else (s1, Ok (strip (text_layer pages)))
    end.
Proof.
  unfold extract_text_from_pdf. rewrite bind_run. unfold call_pdfplumber.
  destruct (pdfplumber_pages w (fs s) pdf_path) as [pages|e]; [|done].
  cbn [raised]. cbv zeta. rewrite add_pages_from_empty.
  destruct (truthy (strip (text_layer pages))) eqn:E.
  - apply truthy_strip_true in E. by rewrite decide_False.
  - apply truthy_strip_false in E. by rewrite decide_True.
Qed.

(** C1 (amended): for every PDF whose text layer, concatenated over all
    pages in document order, is non-empty after trimming whitespace,
    [extract_text_from_pdf] returns that text with its leading and
    trailing whitespace trimmed, and the only call it makes is the
    text-layer extraction: the OCR capability is never invoked. *)
Theorem pdf_text_layer_returned_trimmed pdf_path s pages :
  pdfplumber_pages w (fs s) pdf_path = Ok pages →
  strip (text_layer pages) ≠ [] →
  extract_text_from_pdf w pdf_path s
  = (log (TextLayer pdf_path) None s, Ok (strip (text_layer pages)))
  ∧ Forall (λ ev, is_ocr_call (ev_call ev) = false)
      (new_events s (fst (extract_text_from_pdf w pdf_path s))).
Proof.
  intros Hpages Hne. rewrite extract_text_from_pdf_run, Hpages. cbv zeta.
  rewrite decide_False by (by rewrite <- strip_nil_iff).
  split; [done|]. cbn [fst]. rewrite new_events_log. by repeat constructor.
Qed.

(** C2: for every PDF whose concatenated text layer is empty or
    whitespace-only, [extract_text_from_pdf] invokes the OCR capability
    on the document and hands back whatever that call produced, with no
    trimming and also when the OCR text is empty. *)
Theorem pdf_empty_layer_falls_back_to_ocr pdf_path s pages :
  pdfplumber_pages w (fs s) pdf_path = Ok pages →
  whitespace_only (text_layer pages) →
  extract_text_from_pdf w pdf_path s
  = (log (Ocr FromPdf pdf_path) (raised (ocr_pdf w (fs s) pdf_path))
       (log (TextLayer pdf_path) None s),
     ocr_pdf w (fs s) pdf_path)
  ∧ new_events s (fst (extract_text_from_pdf w pdf_path s))
    = [ {| ev_call := TextLayer pdf_path; ev_raised := None |};
        {| ev_call := Ocr FromPdf pdf_path;
           ev_raised := raised (ocr_pdf w (fs s) pdf_path) |} ].
Proof.
  intros Hpages Hws. rewrite extract_text_from_pdf_run, Hpages. cbv zeta.
  rewrite decide_True by done. split; [done|]. cbn [fst].
  apply new_events_log2.
Qed.

End PdfDispatcher.

(** C1, as the specification words it, fails: a text layer with
    surrounding whitespace is not returned as extracted. *)
Lemma pdf_text_layer_not_verbatim :
  let pages := [Some (py " claim 17 "); None; Some []] in
  let w := fixed_world (Ok pages) (Ok (py "ocr")) (one_summary (py "x")) in
  pdfplumber_pages w (fs empty_state) (py "c.pdf") = Ok pages
  ∧ strip (text_layer pages) ≠ []
  ∧ snd (extract_text_from_pdf w (py "c.pdf") empty_state) ≠ Ok (text_layer pages)
  ∧ snd (extract_text_from_pdf w (py "c.pdf") empty_state) = Ok (py "claim 17").
Proof. vm_compute. repeat split; discriminate. Qed.

Lemma pdf_text_layer_returned_trimmed_witness :
  let pages := [Some (py " claim 17 "); None; Some (py "total 40")] in
  let w := fixed_world (Ok pages) (Ok (py "ocr")) (one_summary (py "x")) in
  snd (extract_text_from_pdf w (py "c.pdf") empty_state)
  = Ok (py "claim 17 total 40").
Proof.
  intros pages w.
  destruct (pdf_text_layer_returned_trimmed w (py "c.pdf") empty_state pages)
    as [Hrun _].
  - reflexivity.
  - vm_compute. discriminate.
  - rewrite Hrun. vm_compute. reflexivity.
Defined.

Lemma pdf_empty_layer_falls_back_to_ocr_witness :
  let pages := [Some (py "  "); None; Some [10; 160]] in
  let w := fixed_world (Ok pages) (Ok (py " scanned text ")) (one_summary (py "x")) in
  snd (extract_text_from_pdf w (py "c.pdf") empty_state) = Ok (py " scanned text ").
Proof.
  intros pages w.
  destruct (pdf_empty_layer_falls_back_to_ocr w (py "c.pdf") empty_state pages)
    as [Hrun _].
  - reflexivity.
  - apply truthy_strip_false. vm_compute. reflexivity.
  - rewrite Hrun. reflexivity.
Defined.

(** ** The summarization adapter *)

Lemma new_events_app s s' evs : trace s' = trace s ++ evs → new_events s s' = evs.
Proof. unfold new_events. intros ->. apply drop_app_length. Qed.

Section Summarizer.

Context (w : World).

Lemma model_summary_run text s :
  model_summary w text s
  = (log (Summarizer (take 3000 text) summary_args)
       (raised (summarizer w (rng s) (take 3000 text) summary_args).2)
       (set_rng (summarizer w (rng s) (take 3000 text) summary_args).1 s),
     summary_of (summarizer w (rng s) (take 3000 text) summary_args).2).
Proof.
  unfold model_summary. rewrite bind_run. unfold call_summarizer.
  fold summary_args.
  destruct (summarizer w (rng s) (take 3000 text) summary_args) as [r' [l|e]];
    simpl; [|done].
  destruct l as [|item l]; simpl; [done|].
  cbv [mbind M_bind mret M_ret raise getitem].
  by destruct (item !! py "summary_text").
Qed.

Lemma summarize_claim_run text s :
  summarize_claim w text s
  = if decide (whitespace_only text) then (s, Ok msg_no_text)
    else model_summary w text s.
Proof.
  unfold summarize_claim, model_summary.
  destruct (truthy (strip text)) eqn:E; simpl.
  - apply truthy_strip_true in E. by rewrite decide_False.
  - apply truthy_strip_false in E. by rewrite decide_True.
Qed.

Lemma model_summary_events text s :
  new_events s (model_summary w text s).1
  = [ {| ev_call := Summarizer (take 3000 text) summary_args;
         ev_raised := raised (summarizer w (rng s) (take 3000 text) summary_args).2 |} ].
Proof. rewrite model_summary_run. cbn [fst]. apply new_events_app. reflexivity. Qed.

(** C3 (amended): for every pair of texts that agree on their first 3000
    characters and are either both whitespace-only or both not,
    [summarize_claim] behaves the same from the same state: same result,
    same calls, same final state. Whenever the summarizer is invoked it
    receives exactly the first 3000 characters of the text. *)
Theorem summarize_claim_sees_first_3000 t1 t2 s :
  take 3000 t1 = take 3000 t2 →
  (whitespace_only t1 ↔ whitespace_only t2) →
  summarize_claim w t1 s = summarize_claim w t2 s
  ∧ ∀ ev text args,
      ev ∈ new_events s (summarize_claim w t1 s).1 →
      ev_call ev = Summarizer text args → text = take 3000 t1.
Proof.
  intros Htake Hws. rewrite !summarize_claim_run. split.
  - destruct (decide (whitespace_only t1)) as [H1|H1].
    + rewrite decide_True by tauto. done.
    + rewrite decide_False by tauto. by rewrite !model_summary_run, Htake.
  - intros ev text args. destruct (decide (whitespace_only t1)).
    + cbn [fst]. rewrite new_events_refl. by intros ?%elem_of_nil.
    + rewrite model_summary_events. intros ->%list_elem_of_singleton.
      cbn [ev_call]. by intros [= <- _].
Qed.

(** C7: granted that the summarizer decodes deterministically when
    sampling is off (its answer then does not depend on the sampler
    state), [summarize_claim] returns the same output for the same text
    whatever the state it runs in, in particular when it is called
    again after a first call. *)
Theorem summarize_claim_repeatable text s1 s2 :
  (∀ r1 r2 t args, do_sample args = false →
                   (summarizer w r1 t args).2 = (summarizer w r2 t args).2) →
  (summarize_claim w text s1).2 = (summarize_claim w text s2).2
  ∧ (summarize_claim w text (summarize_claim w text s1).1).2
    = (summarize_claim w text s1).2.
Proof.
  intros Hdet.
  assert (Hany : ∀ a b, (summarize_claim w text a).2 = (summarize_claim w text b).2).
  { intros a b. rewrite !summarize_claim_run.
    destruct (decide (whitespace_only text)); [done|].
    rewrite !model_summary_run. cbn [snd].
    by rewrite (Hdet (rng a) (rng b)). }
  split; apply Hany.
Qed.

End Summarizer.

(** ** Invariants of runs *)

Section RunInvariants.

Context {A B : Type}.

Lemma emits_ret (P : Event → Prop) (a : A) : emits P (mret a : M A).
Proof. intros s. split; [done|]. exists []. by rewrite app_nil_r. Qed.

Lemma emits_raise (P : Event → Prop) (e : Exn) : emits P (raise e : M A).
Proof. intros s. split; [done|]. exists []. by rewrite app_nil_r. Qed.

Lemma emits_bind (P : Event → Prop) (c : M A) (k : A → M B) :
  emits P c → (∀ a, emits P (k a)) → emits P (c ≫= k).
Proof.
  intros Hc Hk s. rewrite bind_run.
  destruct (Hc s) as [Hfs (evs & Ht & HP)].
  destruct (c s) as [s1 [a|e]]; simpl in *.
  - destruct (Hk a s1) as [Hfs2 (evs2 & Ht2 & HP2)].
    split; [congruence|]. exists (evs ++ evs2).
    rewrite Ht2, Ht, <- app_assoc. split; [done|]. by apply Forall_app.
  - split; [done|]. by exists evs.
Qed.

Lemma propagates_ret (a : A) : propagates (mret a : M A).
Proof. intros s. exists []. rewrite app_nil_r. split; [done|]. by intros ?? ?%elem_of_nil. Qed.

Lemma propagates_raise (e : Exn) : propagates (raise e : M A).
Proof. intros s. exists []. rewrite app_nil_r. split; [done|]. by intros ?? ?%elem_of_nil. Qed.

Lemma propagates_bind (c : M A) (k : A → M B) :
  propagates c → (∀ a, propagates (k a)) → propagates (c ≫= k).
Proof.
  intros Hc Hk s. rewrite bind_run.
  destruct (Hc s) as (evs & Ht & Hp).
  destruct (c s) as [s1 [a|e]]; simpl in *.
  - destruct (Hk a s1) as (evs2 & Ht2 & Hp2).
    exists (evs ++ evs2). rewrite Ht2, Ht, <- app_assoc. split; [done|].
    intros ev e' [Hin|Hin]%elem_of_app Hm Hr.
    + by specialize (Hp ev e' Hin Hm Hr).
    + by apply (Hp2 ev e').
  - exists evs. split; [done|].
    intros ev e' Hin Hm Hr. by specialize (Hp ev e' Hin Hm Hr) as [= ->].
Qed.

End RunInvariants.

Section Orchestrator.

Context (w : World).

Lemma call_pdfplumber_emits P p :
  (∀ e, P {| ev_call := TextLayer p; ev_raised := e |}) →
  emits P (call_pdfplumber w p).
Proof.
  intros HP s. split; [done|]. eexists. split; [reflexivity|].
  by repeat constructor.
Qed.

Lemma call_ocr_emits P src p :
  (∀ e, P {| ev_call := Ocr src p; ev_raised := e |}) →
  emits P (call_ocr w src p).
Proof.
  intros HP s. split; [done|]. eexists. split; [reflexivity|].
  by repeat constructor.
Qed.

Lemma read_text_emits P p : emits P (read_text p).
Proof.
  intros s. unfold read_text.
  destruct (fs s !! p) as [bytes|]; [destruct (utf8_decode bytes)|];
    (split; [done|]); exists []; by rewrite app_nil_r.
Qed.

Lemma extract_text_from_pdf_emits P p :
  (∀ e, P {| ev_call := TextLayer p; ev_raised := e |}) →
  (∀ e, P {| ev_call := Ocr FromPdf p; ev_raised := e |}) →
  emits P (extract_text_from_pdf w p).
Proof.
  intros H1 H2. apply emits_bind; [by apply call_pdfplumber_emits|].
  intros pages. cbv zeta. destruct (truthy _).
  - apply emits_ret.
  - by apply call_ocr_emits.
Qed.

(** The extraction phase never reaches the summarizer and leaves the
    files as they are. *)
Lemma extract_raw_text_emits p :
  emits (λ ev, is_summarizer_call (ev_call ev) = false) (extract_raw_text w p).
Proof.
  unfold extract_raw_text. cbv zeta. repeat case_decide.
  - apply emits_bind; [by apply extract_text_from_pdf_emits|].
    intros; apply emits_ret.
  - apply emits_bind; [by apply call_ocr_emits|]. intros; apply emits_ret.
  - apply emits_bind; [apply read_text_emits|]. intros; apply emits_ret.
  - apply emits_ret.
Qed.

Lemma call_pdfplumber_propagates p : propagates (call_pdfplumber w p).
Proof.
  intros s. eexists. split; [reflexivity|].
  intros ev e ->%list_elem_of_singleton. discriminate.
Qed.

Lemma call_ocr_propagates src p : propagates (call_ocr w src p).
Proof.
  intros s. eexists. split; [reflexivity|].
  intros ev e ->%list_elem_of_singleton _. cbn.
  by destruct src; destruct (_ w (fs s) p); intros [= <-].
Qed.

Lemma read_text_propagates p : propagates (read_text p).
Proof.
  intros s. exists []. unfold read_text.
  destruct (fs s !! p) as [bytes|]; [destruct (utf8_decode bytes)|];
    rewrite app_nil_r; (split; [done|]); by intros ?? ?%elem_of_nil.
Qed.

Lemma model_summary_propagates text : propagates (model_summary w text).
Proof.
  intros s. rewrite model_summary_run. eexists. split; [reflexivity|].
  intros ev e ->%list_elem_of_singleton _. cbn.
  by destruct (summarizer w (rng s) (take 3000 text) summary_args).2;
    intros [= <-].
Qed.

Lemma summarize_claim_propagates text : propagates (summarize_claim w text).
Proof.
  intros s. rewrite summarize_claim_run. case_decide.
  - exists []. rewrite app_nil_r. split; [done|]. by intros ?? ?%elem_of_nil.
  - apply model_summary_propagates.
Qed.

Lemma summarize_extracted_propagates raw : propagates (summarize_extracted w raw).
Proof.
  unfold summarize_extracted. destruct (negb _).
  - apply propagates_ret.
  - apply summarize_claim_propagates.
Qed.

Lemma extract_text_from_pdf_propagates p : propagates (extract_text_from_pdf w p).
Proof.
  apply propagates_bind; [apply call_pdfplumber_propagates|].
  intros pages. cbv zeta. destruct (truthy _).
  - apply propagates_ret.
  - apply call_ocr_propagates.
Qed.

Lemma process_claim_file_propagates p : propagates (process_claim_file w p).
Proof.
  unfold process_claim_file. cbv zeta. repeat case_decide.
  - apply propagates_bind; [apply extract_text_from_pdf_propagates|].
    apply summarize_extracted_propagates.
  - apply propagates_bind; [apply call_ocr_propagates|].
    apply summarize_extracted_propagates.
  - apply propagates_bind; [apply read_text_propagates|].
    apply summarize_extracted_propagates.
  - apply propagates_ret.
Qed.

(** The two phases of [process_claim_file]. *)
Lemma process_claim_file_phases p s :
  process_claim_file w p s = process_with w (summarize_claim w) p s.
Proof.
  unfold process_claim_file, process_with, extract_raw_text. cbv zeta.
  repeat case_decide; rewrite ?bind_run.
  - by destruct (extract_text_from_pdf w p s) as [s1 [raw|e]].
  - by destruct (extract_text_from_image w p s) as [s1 [raw|e]].
  - by destruct (read_text p s) as [s1 [raw|e]].
  - reflexivity.
Qed.

Lemma process_with_run k p s :
  process_with w k p s
  = match extract_raw_text w p s with
    | (s1, Ok None) => (s1, Ok msg_unsupported)
    | (s1, Ok (Some raw)) =>
      if decide (whitespace_only raw) then (s1, Ok msg_unreadable) else k raw s1
    | (s1, Raise e) => (s1, Raise e)
    end.
Proof.
  unfold process_with. rewrite bind_run.
  destruct (extract_raw_text w p s) as [s1 [[raw|]|e]]; try done.
  destruct (truthy (strip raw)) eqn:E; simpl.
  - apply truthy_strip_true in E. by rewrite decide_False.
  - apply truthy_strip_false in E. by rewrite decide_True.
Qed.

(** The summarizer is reached only with text that is not blank: two
    callees that agree on such text give the same pipeline. *)
Lemma process_with_nonblank_only k1 k2 p s :
  (∀ t s', ¬ whitespace_only t → k1 t s' = k2 t s') →
  process_with w k1 p s = process_with w k2 p s.
Proof.
  intros Hk. rewrite !process_with_run.
  destruct (extract_raw_text w p s) as [s1 [[raw|]|e]]; try done.
  case_decide; [done|]. by apply Hk.
Qed.

(** The guard of [summarize_claim] can be dropped under
    [process_claim_file] without changing any run. *)
Lemma process_claim_file_guard_free p s :
  process_claim_file w p s = process_with w (model_summary w) p s.
Proof.
  rewrite process_claim_file_phases. apply process_with_nonblank_only.
  intros t s' Ht. rewrite summarize_claim_run. by rewrite decide_False.
Qed.

(** C4: for a text that is empty or whitespace-only, [summarize_claim]
    returns the fixed warning at once, leaving the state and the log
    untouched; when such a text is what [process_claim_file] extracted,
    the run ends with the fixed message and logs no summarizer call; the
    text entry form shows its warning and calls nothing. *)
Theorem blank_text_never_summarized text s :
  whitespace_only text →
  summarize_claim w text s = (s, Ok msg_no_text)
  ∧ (∀ p s0, extract_raw_text w p s0 = (s, Ok (Some text)) →
       process_claim_file w p s0 = (s, Ok msg_unreadable)
       ∧ Forall (λ ev, is_summarizer_call (ev_call ev) = false)
           (new_events s0 (process_claim_file w p s0).1))
  ∧ text_branch w text true s = (log StWarning None s, Ok tt).
Proof.
  intros Hws. split; [|split].
  - rewrite summarize_claim_run. by rewrite decide_True.
  - intros p s0 Hex.
    assert (Hrun : process_claim_file w p s0 = (s, Ok msg_unreadable)).
    { rewrite process_claim_file_phases, process_with_run, Hex.
      by rewrite decide_True. }
    split; [done|]. rewrite Hrun. cbn [fst].
    destruct (extract_raw_text_emits p s0) as [_ (evs & Ht & HP)].
    rewrite Hex in Ht. cbn [fst] in Ht.
    by rewrite (new_events_app _ _ _ Ht).
  - unfold text_branch. apply truthy_strip_false in Hws. by rewrite Hws.
Qed.

(** C5: for every path whose lower-cased suffix is none of .pdf, .jpg,
    .jpeg, .png, .txt, [process_claim_file] returns exactly the
    unsupported-file-type message; it raises nothing and the state,
    with its log of capability calls, is unchanged. *)
Theorem unsupported_suffix_sentinel p s :
  str_lower w (path_suffix w p)
    ∉ [py ".pdf"; py ".jpg"; py ".jpeg"; py ".png"; py ".txt"] →
  process_claim_file w p s = (s, Ok msg_unsupported).
Proof.
  intros Hext. unfold process_claim_file. cbv zeta.
  rewrite !not_elem_of_cons in Hext.
  destruct Hext as (Hpdf & Hjpg & Hjpeg & Hpng & Htxt & _).
  rewrite decide_False by done.
  rewrite decide_False by (rewrite !not_elem_of_cons, elem_of_nil; tauto).
  by rewrite decide_False.
Qed.

(** C6: on every run of [process_claim_file] during which a call of the
    OCR model or of the summarizer raised an exception, the run ends by
    raising that same exception: nothing is caught, and no sentinel and
    no summary is returned. *)
Theorem model_failures_propagate p s ev e :
  ev ∈ new_events s (process_claim_file w p s).1 →
  is_model_call (ev_call ev) = true →
  ev_raised ev = Some e →
  (process_claim_file w p s).2 = Raise e.
Proof.
  destruct (process_claim_file_propagates p s) as (evs & Ht & Hp).
  rewrite (new_events_app _ _ _ Ht). apply Hp.
Qed.

(** C9: [process_claim_file] never calls [summarize_claim] on blank
    text, so the no-text guard of [summarize_claim] is dead under it.
    Every run equals the run of the same pipeline with the guard-free
    body [model_summary] as callee, and more generally with any callee
    that agrees with [summarize_claim] on text that is not blank. When
    the extraction phase yields blank text the run stops at the
    could-not-extract message, which is not the no-text warning, and
    [summarize_claim] is not reached. When it yields text that is not
    blank the run continues as [summarize_claim] on that text, which
    there coincides with its guard-free body: the summarizer is called,
    once, on the first 3000 characters, and the outcome is the
    summarizer's, never the no-text warning of the guard. *)
Theorem summarize_guard_unreachable p s :
  process_claim_file w p s = process_with w (model_summary w) p s
  ∧ (∀ k, (∀ t s', ¬ whitespace_only t → k t s' = summarize_claim w t s') →
          process_with w k p s = process_claim_file w p s)
  ∧ ∀ s1 raw,
      extract_raw_text w p s = (s1, Ok (Some raw)) →
      (whitespace_only raw →
       process_claim_file w p s = (s1, Ok msg_unreadable)
       ∧ msg_unreadable ≠ msg_no_text)
      ∧ (¬ whitespace_only raw →
         process_claim_file w p s = summarize_claim w raw s1
         ∧ summarize_claim w raw s1 = model_summary w raw s1
         ∧ (process_claim_file w p s).2
           = summary_of (summarizer w (rng s1) (take 3000 raw) summary_args).2
         ∧ new_events s1 (process_claim_file w p s).1
           = [ {| ev_call := Summarizer (take 3000 raw) summary_args;
                  ev_raised :=
                    raised (summarizer w (rng s1) (take 3000 raw) summary_args).2 |} ]).
Proof.
  split; [apply process_claim_file_guard_free|]. split.
  { intros k Hk. rewrite process_claim_file_phases.
    by apply process_with_nonblank_only. }
  intros s1 raw Hex. split.
  - intros Hraw. split; [|by vm_compute].
    rewrite process_claim_file_phases, process_with_run, Hex.
    by rewrite decide_True.
  - intros Hraw.
    assert (Hguard : summarize_claim w raw s1 = model_summary w raw s1).
    { rewrite summarize_claim_run. by rewrite decide_False. }
    assert (Hrun : process_claim_file w p s = summarize_claim w raw s1).
    { rewrite process_claim_file_phases, process_with_run, Hex.
      by rewrite decide_False. }
    split; [done|]. split; [done|]. rewrite Hrun, Hguard. split.
    + by rewrite model_summary_run.
    + apply model_summary_events.
Qed.

(** C10: for every path with suffix .txt naming a file whose bytes are
    not valid UTF-8, [process_claim_file] raises [UnicodeDecodeError];
    it returns no sentinel and the state is unchanged. *)
Theorem undecodable_txt_raises p s bytes :
  str_lower w (path_suffix w p) = py ".txt" →
  fs s !! p = Some bytes →
  ¬ valid_utf8 bytes →
  process_claim_file w p s = (s, Raise UnicodeDecodeError).
Proof.
  intros Hext Hfile Hbad. unfold process_claim_file. cbv zeta. rewrite Hext.
  rewrite decide_False by (by vm_compute).
  rewrite decide_False
    by (rewrite !not_elem_of_cons, elem_of_nil; vm_compute; intuition discriminate).
  rewrite decide_True by done.
  rewrite bind_run. unfold read_text. rewrite Hfile.
  destruct (utf8_decode bytes) as [text|] eqn:D; [|done].
  destruct Hbad. by apply (utf8_decode_valid _ text).
Qed.

End Orchestrator.

(** ** The upload branch and its temporary file *)

Section Upload.

Context (w : World).

Lemma process_claim_file_fs p s : fs (process_claim_file w p s).1 = fs s.
Proof.
  rewrite process_claim_file_guard_free, process_with_run.
  destruct (extract_raw_text_emits w p s) as [Hfs _].
  destruct (extract_raw_text w p s) as [s1 [[raw|]|e]]; simpl in *; try done.
  case_decide; [done|]. by rewrite model_summary_run.
Qed.

Lemma upload_branch_run f s :
  let temp_path := mkstemp w (fs s) (path_suffix w (up_name f)) in
  upload_branch w (Some f) true s
  = match process_claim_file w temp_path (staged w f s) with
    | (s1, Ok summary) =>
      os_remove temp_path (log (StResultBox summary) None (log StSuccess None s1))
    | (s1, Raise e) => (s1, Raise e)
    end.
Proof.
  cbv zeta. unfold upload_branch, staged. cbv zeta.
  cbv [mbind M_bind named_temporary_file write_bytes st]. cbn [fs]. cbv zeta.
  by destruct (process_claim_file w _ _) as [s1 [summary|e]].
Qed.

(** When the pipeline returns, the temporary file is removed. *)
Lemma upload_removes_temp_on_return f s :
  let temp_path := mkstemp w (fs s) (path_suffix w (up_name f)) in
  (upload_branch w (Some f) true s).2 = Ok tt →
  fs (upload_branch w (Some f) true s).1 !! temp_path = None.
Proof.
  cbv zeta. rewrite upload_branch_run.
  destruct (process_claim_file w _ _) as [s1 [summary|e]]; [|discriminate].
  unfold os_remove. cbn [fs log].
  destruct (fs s1 !! _); [|discriminate].
  intros _. cbn [fst fs set_fs]. apply lookup_delete_eq.
Qed.

(** When the pipeline raises, the script stops before [os.remove] and
    the temporary file stays, holding the uploaded bytes. *)
Lemma upload_keeps_temp_on_raise f s e :
  let temp_path := mkstemp w (fs s) (path_suffix w (up_name f)) in
  (process_claim_file w temp_path (staged w f s)).2 = Raise e →
  (upload_branch w (Some f) true s).2 = Raise e
  ∧ fs (upload_branch w (Some f) true s).1 !! temp_path = Some (up_bytes f).
Proof.
  cbv zeta. intros Hraise. rewrite upload_branch_run.
  pose proof (process_claim_file_fs
                (mkstemp w (fs s) (path_suffix w (up_name f))) (staged w f s)) as Hfs.
  destruct (process_claim_file w _ _) as [s1 [summary|e']]; [discriminate|].
  cbn [fst snd] in *. injection Hraise as ->. split; [done|].
  rewrite Hfs. unfold staged. cbn [fs log set_fs]. apply lookup_insert_eq.
Qed.

End Upload.

(** C8, evaluated on the code: a .txt upload that is not valid UTF-8
    makes [process_claim_file] raise, the script ends there, and the
    temporary file that staged the upload is still on disk afterwards:
    [os.remove] is only reached when the pipeline returns. *)
Theorem temp_file_left_behind_on_error :
  let w := fixed_world (Ok []) (Ok []) (one_summary (py "x")) in
  let run := upload_branch w (Some latin1_upload) true empty_state in
  run.2 = Raise UnicodeDecodeError
  ∧ fs run.1 !! py "/tmp/tmpk3v9x_a1.txt" = Some (up_bytes latin1_upload)
  ∧ fs empty_state !! py "/tmp/tmpk3v9x_a1.txt" = None.
Proof. vm_compute. done. Qed.

(** On the same upload in UTF-8 the file is removed. *)
Example temp_file_removed_on_success :
  let w := fixed_world (Ok []) (Ok []) (one_summary (py "x")) in
  let f := {| up_name := py "claim.txt"; up_bytes := ["c"; "a"; "f"; xc3; xa9]%byte |} in
  let run := upload_branch w (Some f) true empty_state in
  run.2 = Ok tt ∧ fs run.1 !! py "/tmp/tmpk3v9x_a1.txt" = None.
Proof. vm_compute. done. Qed.

(** ** The claims on concrete runs *)

(** C3, as the specification words it, fails: two texts with the same
    first 3000 characters, all of them spaces, are summarized
    differently, because the blank-text guard reads the whole text. *)
Lemma summarize_claim_tail_matters :
  let w := fixed_world (Ok []) (Ok []) (one_summary (py "summary")) in
  let t1 := spaces_3000 in
  let t2 := spaces_3000 ++ py "total due 40" in
  take 3000 t1 = take 3000 t2
  ∧ (summarize_claim w t1 empty_state).2 = Ok msg_no_text
  ∧ (summarize_claim w t2 empty_state).2 = Ok (py "summary")
  ∧ (summarize_claim w t1 empty_state).2 ≠ (summarize_claim w t2 empty_state).2.
Proof. vm_compute. repeat split; try reflexivity. discriminate. Qed.

Lemma summarize_claim_sees_first_3000_witness :
  let w := fixed_world (Ok []) (Ok []) (one_summary (py "summary")) in
  let t1 := py "claim 17" ++ spaces_3000 ++ py "paid" in
  let t2 := py "claim 17" ++ spaces_3000 ++ py "denied" in
  summarize_claim w t1 empty_state = summarize_claim w t2 empty_state.
Proof.
  intros w t1 t2.
  refine (proj1 (summarize_claim_sees_first_3000 w t1 t2 empty_state _ _)).
  - vm_compute. reflexivity.
  - apply (bool_decide_unpack _). vm_compute. exact I.
Defined.

Lemma blank_text_never_summarized_witness :
  let w := fixed_world (Ok []) (Ok []) (one_summary (py "summary")) in
  let s := with_file (py "blank.txt") [" "; x0d; x0a; x09]%byte empty_state in
  summarize_claim w [32; 10; 9] s = (s, Ok msg_no_text)
  ∧ process_claim_file w (py "blank.txt") s = (s, Ok msg_unreadable).
Proof.
  intros w s.
  destruct (blank_text_never_summarized w [32; 10; 9] s) as (Hsum & Hrun & _).
  - apply (bool_decide_unpack _). vm_compute. exact I.
  - split; [exact Hsum|].
    apply (Hrun (py "blank.txt") s). vm_compute. reflexivity.
Defined.

Lemma unsupported_suffix_sentinel_witness :
  let w := fixed_world (Ok []) (Ok []) (one_summary (py "summary")) in
  process_claim_file w (py "/tmp/upload/claim.DOCX") empty_state
  = (empty_state, Ok msg_unsupported).
Proof.
  intros w. apply unsupported_suffix_sentinel.
  apply (bool_decide_unpack _). vm_compute. exact I.
Defined.

Lemma model_failures_propagate_witness :
  let w := fixed_world (Ok []) (Raise (ModelError 7)) (one_summary (py "summary")) in
  (process_claim_file w (py "scan.PNG") empty_state).2 = Raise (ModelError 7).
Proof.
  intros w.
  apply (model_failures_propagate w (py "scan.PNG") empty_state
           {| ev_call := Ocr FromImages (py "scan.PNG");
              ev_raised := Some (ModelError 7) |}).
  - vm_compute. constructor.
  - reflexivity.
  - reflexivity.
Defined.

Lemma summarize_claim_repeatable_witness :
  let w := fixed_world (Ok []) (Ok []) (one_summary (py " Minor collision. ")) in
  (summarize_claim w (py "Patient was involved") empty_state).2
  = (summarize_claim w (py "Patient was involved") (set_rng 5 empty_state)).2.
Proof.
  intros w.
  refine (proj1 (summarize_claim_repeatable w _ empty_state (set_rng 5 empty_state) _)).
  intros r1 r2 t args Hoff. simpl. rewrite Hoff. reflexivity.
Defined.

Lemma summarize_guard_unreachable_witness :
  let w := fixed_world (Ok []) (Ok []) (one_summary (py " Minor collision. ")) in
  let s := with_file (py "blank.txt") [" "; x0a]%byte
             (with_file (py "c.txt") ["h"; "i"]%byte empty_state) in
  (process_claim_file w (py "c.txt") s).2
  = summary_of (summarizer w (rng s) (take 3000 (py "hi")) summary_args).2
  ∧ process_claim_file w (py "blank.txt") s = (s, Ok msg_unreadable)
  ∧ process_claim_file w (py "c.txt") s
    = process_with w (model_summary w) (py "c.txt") s.
Proof.
  intros w s.
  destruct (summarize_guard_unreachable w (py "c.txt") s) as (Hfree & _ & Hcases).
  destruct (summarize_guard_unreachable w (py "blank.txt") s) as (_ & _ & Hblank).
  destruct (Hcases s (py "hi")) as [_ Hnb]; [vm_compute; reflexivity|].
  destruct Hnb as (_ & _ & Hout & _);
    [apply (bool_decide_unpack _); vm_compute; exact I|].
  destruct (Hblank s [32; 10]) as [Hb _]; [vm_compute; reflexivity|].
  destruct Hb as [Hstop _];
    [apply (bool_decide_unpack _); vm_compute; exact I|].
  split; [exact Hout|]. split; [exact Hstop|exact Hfree].
Defined.

Lemma undecodable_txt_raises_witness :
  let w := fixed_world (Ok []) (Ok []) (one_summary (py "summary")) in
  let s := with_file (py "claim.TXT") (up_bytes latin1_upload) empty_state in
  process_claim_file w (py "claim.TXT") s = (s, Raise UnicodeDecodeError).
Proof.
  intros w s.
  apply (undecodable_txt_raises w (py "claim.TXT") s (up_bytes latin1_upload)).
  - vm_compute. reflexivity.
  - vm_compute. reflexivity.
  - apply decode_error_invalid. vm_compute. reflexivity.
Defined.

(** ** More on [strip]: what is removed and what is kept *)

Lemma lstrip_split s : ∃ l, s = l ++ lstrip s ∧ whitespace_only l.
Proof.
  induction s as [|a s (l & E & Hl)]; simpl.
  - exists []. split; [done|constructor].
  - destruct (isspace a) eqn:Ha.
    + exists (a :: l). split; [by rewrite E at 1|by constructor].
    + exists []. split; [done|constructor].
Qed.

Lemma lstrip_fixed s : (∀ c, head s = Some c → isspace c = false) → lstrip s = s.
Proof. destruct s as [|a s]; simpl; [done|]. intros H. by rewrite (H a). Qed.

Lemma last_rev (s : pystr) : last (rev s) = head s.
Proof. destruct s as [|a s]; simpl; [done|]. apply last_snoc. Qed.

Lemma head_rev (s : pystr) : head (rev s) = last s.
Proof. by rewrite <- (rev_involutive s) at 2; rewrite last_rev. Qed.

Lemma rstrip_split s : ∃ r, s = rstrip s ++ r ∧ whitespace_only r.
Proof.
  unfold rstrip. destruct (lstrip_split (rev s)) as (l & E & Hl).
  exists (rev l). split; [|by apply whitespace_only_rev].
  rewrite <- rev_app_distr, <- E. by rewrite rev_involutive.
Qed.

Lemma strip_split s :
  ∃ l r, s = l ++ strip s ++ r ∧ whitespace_only l ∧ whitespace_only r.
Proof.
  unfold strip. destruct (lstrip_split s) as (l & El & Hl).
  destruct (rstrip_split (lstrip s)) as (r & Er & Hr).
  exists l, r. split; [|done]. by rewrite <- Er.
Qed.

Lemma strip_last s c : last (strip s) = Some c → isspace c = false.
Proof.
  unfold strip, rstrip. rewrite last_rev.
  destruct (lstrip (rev (lstrip s))) as [|a t] eqn:E; [done|].
  intros [= ->]. by apply lstrip_head in E.
Qed.

Lemma strip_head s c : head (strip s) = Some c → isspace c = false.
Proof.
  unfold strip. destruct (rstrip_split (lstrip s)) as (r & Er & _).
  destruct (rstrip (lstrip s)) as [|a t]; [done|].
  intros [= ->]. by apply lstrip_head in Er.
Qed.

Lemma strip_idem s : strip (strip s) = strip s.
Proof.
  unfold strip at 1. rewrite (lstrip_fixed (strip s)) by apply strip_head.
  unfold rstrip. rewrite lstrip_fixed, rev_involutive; [done|].
  intros c. rewrite head_rev. apply strip_last.
Qed.

Lemma whitespace_only_concat (l : list pystr) :
  whitespace_only (concat l) ↔ Forall whitespace_only l.
Proof.
  unfold whitespace_only. induction l as [|t l IH]; simpl.
  - split; constructor.
  - rewrite Forall_app, Forall_cons, IH. done.
Qed.

(** ** Newline translation *)

Lemma universal_newlines_cons c rest :
  universal_newlines (c :: rest)
  = if c =? 13
    then 10 :: universal_newlines
                 (match rest with
                  | c' :: rest' => if c' =? 10 then rest' else rest
                  | [] => rest
                  end)
    else c :: universal_newlines rest.
Proof.
  destruct (N.eqb_spec c 13) as [->|Hc].
  - destruct rest as [|c' rest']; [done|].
    destruct (N.eqb_spec c' 10) as [->|Hc']; [done|].
    cbn [universal_newlines].
    destruct c' as [|[[[[]|[]|]|[[]|[]|]|]|[[[]|[]|]|[[]|[]|]|]|]]; done.
  - cbn [universal_newlines].
    destruct c as [|[[[[[]|[]|]|[[]|[]|]|]|[[[]|[]|]|[[]|[]|]|]|]|[[[[]|[]|]|[[]|[]|]|]|[[[]|[]|]|[[]|[]|]|]|]|]];
      done.
Qed.

Lemma universal_newlines_facts (n : nat) :
  ∀ t, (length t ≤ n)%nat →
    (whitespace_only (universal_newlines t) ↔ whitespace_only t)
    ∧ 13 ∉ universal_newlines t.
Proof.
  unfold whitespace_only.
  induction n as [|n IH]; intros [|c rest] Hlen; simpl in Hlen; try lia;
    try (split; [done|by apply not_elem_of_nil]).
  rewrite universal_newlines_cons.
  destruct (N.eqb_spec c 13) as [->|Hc].
  - destruct rest as [|c' rest'].
    + split; [|rewrite not_elem_of_cons; split; [done|apply not_elem_of_nil]].
      split; intros _; by repeat constructor.
    + simpl in Hlen. destruct (N.eqb_spec c' 10) as [->|Hc'].
      * destruct (IH rest' ltac:(lia)) as [Hws Hcr].
        split; [|rewrite not_elem_of_cons; by split].
        rewrite !Forall_cons, Hws. by intuition.
      * destruct (IH (c' :: rest') ltac:(simpl; lia)) as [Hws Hcr].
        split; [|rewrite not_elem_of_cons; by split].
        rewrite (Forall_cons _ 10), (Forall_cons _ 13), Hws. by intuition.
  - destruct (IH rest ltac:(lia)) as [Hws Hcr].
    split; [|rewrite not_elem_of_cons; by split].
    by rewrite !Forall_cons, Hws.
Qed.

Lemma universal_newlines_blank t :
  whitespace_only (universal_newlines t) ↔ whitespace_only t.
Proof. by apply (universal_newlines_facts (length t)). Qed.

Lemma universal_newlines_no_cr t : 13 ∉ universal_newlines t.
Proof. by apply (universal_newlines_facts (length t)). Qed.

Lemma whitespace_only_strip s : whitespace_only (strip s) ↔ whitespace_only s.
Proof. by rewrite <- !strip_nil_iff, strip_idem. Qed.

(** ** The three supported paths, end to end *)

Section Paths.

Context (w : World).

(** X1: a .pdf path: the text layer first, OCR only when that layer is
    blank, no fallback when pdfplumber itself fails, and the summarizer
    on whichever text was found. *)
Theorem pdf_pipeline p s :
  str_lower w (path_suffix w p) = py ".pdf" →
  process_claim_file w p s
  = match pdfplumber_pages w (fs s) p with
    | Raise e => (log (TextLayer p) (Some e) s, Raise e)
    | Ok pages =>
      let s1 := log (TextLayer p) None s in
      if decide (whitespace_only (text_layer pages)) then
        match ocr_pdf w (fs s) p with
        | Raise e => (log (Ocr FromPdf p) (Some e) s1, Raise e)
        | Ok t =>
          let s2 := log (Ocr FromPdf p) None s1 in
          if decide (whitespace_only t) then (s2, Ok msg_unreadable)
          else model_summary w t s2
        end
      else model_summary w (strip (text_layer pages)) s1
    end.
Proof.
  intros Hext. rewrite process_claim_file_guard_free, process_with_run.
  unfold extract_raw_text. cbv zeta. rewrite Hext, decide_True by done.
  rewrite bind_run, extract_text_from_pdf_run.
  destruct (pdfplumber_pages w (fs s) p) as [pages|e]; [|done]. cbv zeta.
  destruct (decide (whitespace_only (text_layer pages))) as [Hws|Hws].
  - by destruct (ocr_pdf w (fs s) p) as [t|e].
  - cbn. rewrite decide_False; [done|]. by rewrite whitespace_only_strip.
Qed.

(** X2: an image path: OCR at once, never the text layer, and the
    summarizer on the OCR text unless that text is blank. *)
Theorem image_pipeline p s :
  str_lower w (path_suffix w p) ∈ [py ".jpg"; py ".jpeg"; py ".png"] →
  process_claim_file w p s
  = match ocr_images w (fs s) p with
    | Raise e => (log (Ocr FromImages p) (Some e) s, Raise e)
    | Ok t =>
      let s1 := log (Ocr FromImages p) None s in
      if decide (whitespace_only t) then (s1, Ok msg_unreadable)
      else model_summary w t s1
    end.
Proof.
  intros Hext.
  assert (Hne : str_lower w (path_suffix w p) ≠ py ".pdf").
  { intros Heq. rewrite Heq in Hext.
    rewrite !elem_of_cons, elem_of_nil in Hext. vm_compute in Hext.
    by intuition discriminate. }
  rewrite process_claim_file_guard_free, process_with_run.
  unfold extract_raw_text. cbv zeta.
  rewrite decide_False, decide_True by done.
  rewrite bind_run. unfold extract_text_from_image, call_ocr.
  by destruct (ocr_images w (fs s) p) as [t|e].
Qed.

(** X3: a .txt path holding the UTF-8 encoding of a text: the whole text is
    read, line ends become LF, no capability is called for the
    extraction, and the file counts as unreadable exactly when the text
    is blank. *)
Theorem txt_pipeline p s bytes t :
  str_lower w (path_suffix w p) = py ".txt" →
  fs s !! p = Some bytes →
  Forall (λ c, is_scalar c = true) t →
  utf8_encode t = map Byte.to_N bytes →
  extract_raw_text w p s = (s, Ok (Some (universal_newlines t)))
  ∧ process_claim_file w p s
    = if decide (whitespace_only t) then (s, Ok msg_unreadable)
      else model_summary w (universal_newlines t) s.
Proof.
  intros Hext Hfile Hscalar Henc.
  assert (Hex : extract_raw_text w p s = (s, Ok (Some (universal_newlines t)))).
  { unfold extract_raw_text. cbv zeta. rewrite Hext.
    rewrite decide_False by (by vm_compute).
    rewrite decide_False
      by (rewrite !not_elem_of_cons, elem_of_nil; vm_compute; intuition discriminate).
    rewrite decide_True by done.
    rewrite bind_run. unfold read_text. rewrite Hfile.
    by rewrite (utf8_decode_complete t Hscalar bytes Henc). }
  split; [done|].
  rewrite process_claim_file_guard_free, process_with_run, Hex.
  destruct (decide (whitespace_only t)) as [Hws|Hws].
  - rewrite decide_True; [done|]. by apply universal_newlines_blank.
  - rewrite decide_False; [done|]. by rewrite universal_newlines_blank.
Qed.

End Paths.

(** ** More on the PDF dispatcher *)

Section PdfPages.

Context (w : World).

(** X4: the OCR fallback is taken exactly when every page is without text:
    [None], empty, or whitespace only. One page with a visible character
    is enough to skip OCR. *)
Theorem pdf_ocr_exactly_when_pages_blank p s pages :
  pdfplumber_pages w (fs s) p = Ok pages →
  Exists (λ ev, is_ocr_call (ev_call ev) = true)
    (new_events s (extract_text_from_pdf w p s).1)
  ↔ Forall (λ page_text, whitespace_only (default [] page_text)) pages.
Proof.
  intros Hpages. rewrite extract_text_from_pdf_run, Hpages. cbv zeta.
  assert (Hall : whitespace_only (text_layer pages)
                 ↔ Forall (λ page_text, whitespace_only (default [] page_text)) pages).
  { unfold text_layer. by rewrite whitespace_only_concat, Forall_fmap. }
  rewrite <- Hall. case_decide as Hws; cbn [fst].
  - rewrite new_events_log2. split; [done|]. intros _.
    apply Exists_cons_tl, Exists_cons_hd. reflexivity.
  - rewrite new_events_log. split; [|done].
    intros [Hev|Hev%Exists_nil]%Exists_cons; [discriminate|done].
Qed.

(** X5: what the text-layer path returns: the concatenated text layer minus
    a whitespace-only prefix and a whitespace-only suffix, and nothing
    else removed; the result is not empty and neither starts nor ends
    with whitespace. *)
Theorem pdf_text_layer_result_shape p s pages :
  pdfplumber_pages w (fs s) p = Ok pages →
  ¬ whitespace_only (text_layer pages) →
  ∃ t l r,
    (extract_text_from_pdf w p s).2 = Ok t
    ∧ text_layer pages = l ++ t ++ r
    ∧ whitespace_only l ∧ whitespace_only r
    ∧ t ≠ []
    ∧ (∀ c, head t = Some c → isspace c = false)
    ∧ (∀ c, last t = Some c → isspace c = false).
Proof.
  intros Hpages Hws. rewrite extract_text_from_pdf_run, Hpages. cbv zeta.
  rewrite decide_False by done.
  destruct (strip_split (text_layer pages)) as (l & r & E & Hl & Hr).
  exists (strip (text_layer pages)), l, r.
  split; [done|]. split; [done|]. split; [done|]. split; [done|].
  split; [by rewrite strip_nil_iff|].
  split; [apply strip_head|apply strip_last].
Qed.

End PdfPages.

Lemma pdf_ocr_exactly_when_pages_blank_witness :
  let pages := [None; Some (py "   "); Some [10; 160]; Some []] in
  let w := fixed_world (Ok pages) (Ok (py "ocr")) (one_summary (py "s")) in
  Exists (λ ev, is_ocr_call (ev_call ev) = true)
    (new_events empty_state (extract_text_from_pdf w (py "c.pdf") empty_state).1).
Proof.
  intros pages w.
  apply (pdf_ocr_exactly_when_pages_blank w (py "c.pdf") empty_state pages).
  - reflexivity.
  - apply (bool_decide_unpack _). vm_compute. exact I.
Defined.

Lemma pdf_text_layer_result_shape_witness :
  let pages := [Some (py " claim 17 "); None; Some (py "paid  ")] in
  let w := fixed_world (Ok pages) (Ok (py "ocr")) (one_summary (py "s")) in
  ∃ t l r,
    (extract_text_from_pdf w (py "c.pdf") empty_state).2 = Ok t
    ∧ text_layer pages = l ++ t ++ r
    ∧ whitespace_only l ∧ whitespace_only r
    ∧ t ≠ []
    ∧ (∀ c, head t = Some c → isspace c = false)
    ∧ (∀ c, last t = Some c → isspace c = false).
Proof.
  intros pages w.
  apply (pdf_text_layer_result_shape w (py "c.pdf") empty_state pages).
  - reflexivity.
  - intros H%truthy_strip_false. vm_compute in H. discriminate.
Defined.

(** ** What every run of the pipeline looks like *)

Lemma filter_none {A} (f : A → bool) (l : list A) :
  Forall (λ x, f x = false) l → List.filter f l = [].
Proof. induction 1 as [|x l Hx _ IH]; simpl; [done|]. by rewrite Hx. Qed.

Section Runs.

Context (w : World).

Lemma model_summary_trimmed text s t :
  (model_summary w text s).2 = Ok t → strip t = t.
Proof.
  rewrite model_summary_run. cbn [snd]. unfold summary_of.
  destruct (summarizer w (rng s) (take 3000 text) summary_args).2 as [[|item l]|e];
    try discriminate.
  destruct (item !! py "summary_text"); [|discriminate].
  intros [= <-]. apply strip_idem.
Qed.

(** X6: every string that [summarize_claim] or [process_claim_file] returns,
    summary or sentinel, is free of leading and trailing whitespace. *)
Theorem returned_strings_are_trimmed p text s t :
  (summarize_claim w text s).2 = Ok t ∨ (process_claim_file w p s).2 = Ok t →
  strip t = t.
Proof.
  intros [H|H].
  - rewrite summarize_claim_run in H. case_decide.
    + injection H as <-. by vm_compute.
    + by apply model_summary_trimmed in H.
  - rewrite process_claim_file_guard_free, process_with_run in H.
    destruct (extract_raw_text w p s) as [s1 [[raw|]|e]]; [| |discriminate].
    + case_decide.
      * injection H as <-. by vm_compute.
      * by apply model_summary_trimmed in H.
    + injection H as <-. by vm_compute.
Qed.

Lemma extract_raw_text_events p s :
  ∃ pre, trace (extract_raw_text w p s).1 = trace s ++ pre
         ∧ Forall (λ ev, is_summarizer_call (ev_call ev) = false) pre
         ∧ (length (List.filter (λ ev, is_ocr_call (ev_call ev)) pre) ≤ 1)%nat.
Proof.
  unfold extract_raw_text. cbv zeta. repeat case_decide.
  - rewrite bind_run, extract_text_from_pdf_run.
    destruct (pdfplumber_pages w (fs s) p) as [pages|e]; cbv zeta.
    + case_decide.
      * destruct (ocr_pdf w (fs s) p) as [t|e]; cbv [mret M_ret];
          cbn [fst log trace raised]; rewrite <- app_assoc; eexists; (split; [reflexivity|]);
          (split; [by repeat constructor|simpl; lia]).
      * eexists. split; [reflexivity|]. split; [by repeat constructor|simpl; lia].
    + eexists. split; [reflexivity|]. split; [by repeat constructor|simpl; lia].
  - rewrite bind_run. unfold extract_text_from_image, call_ocr.
    destruct (ocr_images w (fs s) p) as [t|e];
      eexists; (split; [reflexivity|]);
      (split; [by repeat constructor|simpl; lia]).
  - rewrite bind_run. unfold read_text.
    exists []. rewrite app_nil_r.
    destruct (fs s !! p) as [bytes|]; [destruct (utf8_decode bytes)|];
      (split; [done|]); (split; [constructor|simpl; lia]).
  - exists []. rewrite app_nil_r. split; [done|]. split; [constructor|simpl; lia].
Qed.

Lemma process_claim_file_events p s :
  ∃ pre post,
    new_events s (process_claim_file w p s).1 = pre ++ post
    ∧ Forall (λ ev, is_summarizer_call (ev_call ev) = false) pre
    ∧ (length (List.filter (λ ev, is_ocr_call (ev_call ev)) pre) ≤ 1)%nat
    ∧ (post = []
       ∨ ∃ raw e, post = [ {| ev_call := Summarizer (take 3000 raw) summary_args;
                              ev_raised := e |} ]).
Proof.
  destruct (extract_raw_text_events p s) as (pre & Ht & Hpre & Hocr).
  rewrite process_claim_file_guard_free, process_with_run.
  destruct (extract_raw_text w p s) as [s1 [[raw|]|e]]; cbn [fst] in Ht.
  - case_decide.
    + exists pre, []. rewrite app_nil_r. cbn [fst].
      split; [by apply new_events_app|]. auto.
    + exists pre. eexists. split; [|split; [done|split; [done|right; eauto]]].
      apply new_events_app. rewrite model_summary_run. cbn [fst log trace set_rng].
      rewrite Ht, <- app_assoc. reflexivity.
  - exists pre, []. rewrite app_nil_r. cbn [fst].
    split; [by apply new_events_app|]. auto.
  - exists pre, []. rewrite app_nil_r. cbn [fst].
    split; [by apply new_events_app|]. auto.
Qed.

(** X7: a run of [process_claim_file] calls the OCR model at most once and
    the summarizer at most once, and a summarizer call is the last call
    of the run. *)
Theorem pipeline_call_budget p s :
  let evs := new_events s (process_claim_file w p s).1 in
  (length (List.filter (λ ev, is_ocr_call (ev_call ev)) evs) ≤ 1)%nat
  ∧ (length (List.filter (λ ev, is_summarizer_call (ev_call ev)) evs) ≤ 1)%nat
  ∧ ∀ before ev after,
      evs = before ++ ev :: after →
      is_summarizer_call (ev_call ev) = true → after = [].
Proof.
  cbv zeta.
  destruct (process_claim_file_events p s) as (pre & post & -> & Hpre & Hocr & Hpost).
  rewrite !List.filter_app, !length_app, (filter_none _ pre Hpre).
  split; [|split].
  - destruct Hpost as [->|(raw & e & ->)]; simpl; lia.
  - destruct Hpost as [->|(raw & e & ->)]; simpl; lia.
  - intros before ev after Heq Hev.
    assert (Hnot : ev ∉ pre).
    { intros Hin. apply (proj1 (Forall_forall _ _) Hpre) in Hin. congruence. }
    destruct Hpost as [->|(raw & e & ->)].
    + rewrite app_nil_r in Heq. destruct Hnot. rewrite Heq. set_solver.
    + destruct after as [|x after _] using rev_ind; [done|].
      rewrite app_comm_cons, app_assoc in Heq.
      apply app_inj_tail in Heq as [Heq _].
      destruct Hnot. rewrite Heq. set_solver.
Qed.

(** X8: whatever the file, the summarizer is only ever called with at most
    3000 characters and with [max_length=130], [min_length=40],
    [do_sample=False]. *)
Theorem summarizer_input_bounded p s ev text args :
  ev ∈ new_events s (process_claim_file w p s).1 →
  ev_call ev = Summarizer text args →
  (length text ≤ 3000)%nat ∧ args = summary_args.
Proof.
  destruct (process_claim_file_events p s) as (pre & post & -> & Hpre & _ & Hpost).
  intros [Hin|Hin]%elem_of_app Hcall.
  - apply (proj1 (Forall_forall _ _) Hpre) in Hin. by rewrite Hcall in Hin.
  - destruct Hpost as [->|(raw & e & ->)]; [by apply elem_of_nil in Hin|].
    apply list_elem_of_singleton in Hin as ->. cbn in Hcall.
    injection Hcall as <- <-. split; [|done]. rewrite length_take. lia.
Qed.

End Runs.

(** ** Text files, the text form and the upload branch *)

Lemma elem_of_take_full (x : N) n (l : pystr) : x ∈ take n l → x ∈ l.
Proof.
  intros Hin. rewrite <- (take_drop n l). apply elem_of_app. by left.
Qed.

Section Script.

Context (w : World).

(** X10: the text of a .txt file reaches the summarizer without carriage
    returns: CR LF and lone CR were turned into LF when the file was
    read. *)
Theorem txt_summarizer_input_has_no_cr p s ev text args :
  str_lower w (path_suffix w p) = py ".txt" →
  ev ∈ new_events s (process_claim_file w p s).1 →
  ev_call ev = Summarizer text args →
  13 ∉ text.
Proof.
  intros Hext. rewrite process_claim_file_guard_free, process_with_run.
  unfold extract_raw_text. cbv zeta. rewrite Hext.
  rewrite decide_False by (by vm_compute).
  rewrite decide_False
    by (rewrite !not_elem_of_cons, elem_of_nil; vm_compute; intuition discriminate).
  rewrite decide_True by done.
  rewrite bind_run. unfold read_text.
  destruct (fs s !! p) as [bytes|];
    [destruct (utf8_decode bytes) as [t|]|];
    cbv [mret M_ret]; cbn [fst];
    try (rewrite new_events_refl; by intros ?%elem_of_nil).
  case_decide; cbn [fst].
  - rewrite new_events_refl. by intros ?%elem_of_nil.
  - rewrite model_summary_events. intros ->%list_elem_of_singleton.
    cbn [ev_call]. intros [= <- _] Hin%elem_of_take_full.
    by apply universal_newlines_no_cr in Hin.
Qed.

(** X11: the text form with text that is not blank: the summarizer runs on
    it (the guard of [summarize_claim] is dead here as well); the success
    banner and the result box appear only when the summarizer call
    returned, and a failure ends the script with nothing shown. *)
Theorem text_entry_outcome text s :
  ¬ whitespace_only text →
  text_branch w text true s
  = match model_summary w text s with
    | (s1, Ok summary) =>
      (log (StResultBox summary) None (log StSuccess None s1), Ok tt)
    | (s1, Raise e) => (s1, Raise e)
    end.
Proof.
  intros Hws. unfold text_branch.
  rewrite (proj2 (truthy_strip_true text) Hws).
  rewrite bind_run, summarize_claim_run, decide_False by done.
  by destruct (model_summary w text s) as [s1 [summary|e]].
Qed.

(** X12: whatever string the pipeline returns for an upload, summary or
    sentinel, the script shows the success banner, then that string in
    the result box, and then deletes the temporary file. *)
Theorem upload_shows_what_pipeline_returned f s s1 summary :
  let temp_path := mkstemp w (fs s) (path_suffix w (up_name f)) in
  process_claim_file w temp_path (staged w f s) = (s1, Ok summary) →
  upload_branch w (Some f) true s
  = (set_fs (delete temp_path (fs s1))
       (log (StResultBox summary) None (log StSuccess None s1)),
     Ok tt).
Proof.
  cbv zeta. intros Hrun. rewrite upload_branch_run.
  pose proof (process_claim_file_fs w
                (mkstemp w (fs s) (path_suffix w (up_name f))) (staged w f s)) as Hfs.
  rewrite Hrun in *. cbn [fst] in Hfs.
  unfold os_remove. cbn [fs log]. rewrite Hfs.
  unfold staged. cbn [fs log set_fs]. by rewrite lookup_insert_eq.
Qed.


End Script.

(** ** The further properties on concrete runs *)

Lemma pdf_pipeline_witness :
  let pages := [Some (py "  "); None] in
  let w := fixed_world (Ok pages) (Ok [10; 32]) (one_summary (py "s")) in
  process_claim_file w (py "scan.PDF") empty_state
  = (log (Ocr FromPdf (py "scan.PDF")) None
       (log (TextLayer (py "scan.PDF")) None empty_state),
     Ok msg_unreadable).
Proof.
  intros pages w. rewrite (pdf_pipeline w (py "scan.PDF") empty_state).
  - vm_compute. reflexivity.
  - vm_compute. reflexivity.
Defined.

Lemma image_pipeline_witness :
  let w := fixed_world (Ok []) (Ok (py " Total due 40 "))
             (one_summary (py " The insurer owes 40. ")) in
  (process_claim_file w (py "photo.JPeG") empty_state).2
  = Ok (py "The insurer owes 40.").
Proof.
  intros w. rewrite (image_pipeline w (py "photo.JPeG") empty_state).
  - vm_compute. reflexivity.
  - apply (bool_decide_unpack _). vm_compute. exact I.
Defined.

Lemma txt_pipeline_witness :
  let w := fixed_world (Ok []) (Ok []) (one_summary (py "s")) in
  let s := with_file (py "n.txt") ["c"; "a"; "f"; xc3; xa9; x0d; x0a]%byte
             empty_state in
  extract_raw_text w (py "n.txt") s = (s, Ok (Some [99; 97; 102; 233; 10])).
Proof.
  intros w s.
  refine (proj1 (txt_pipeline w (py "n.txt") s
                   ["c"; "a"; "f"; xc3; xa9; x0d; x0a]%byte
                   [99; 97; 102; 233; 13; 10] _ _ _ _)).
  - vm_compute. reflexivity.
  - vm_compute. reflexivity.
  - apply (bool_decide_unpack _). vm_compute. exact I.
  - vm_compute. reflexivity.
Defined.

Lemma returned_strings_are_trimmed_witness :
  strip (py "Minor collision.") = py "Minor collision.".
Proof.
  apply (returned_strings_are_trimmed
           (fixed_world (Ok []) (Ok []) (one_summary ([9] ++ py " Minor collision. ")))
           (py "c.txt") []
           (with_file (py "c.txt") ["h"; "i"]%byte empty_state)).
  right. vm_compute. reflexivity.
Defined.

Lemma pipeline_call_budget_witness :
  let w := fixed_world (Ok [None]) (Ok (py "scanned")) (one_summary (py "s")) in
  let evs := new_events empty_state (process_claim_file w (py "c.pdf") empty_state).1 in
  (length (List.filter (λ ev, is_ocr_call (ev_call ev)) evs) ≤ 1)%nat
  ∧ (length (List.filter (λ ev, is_summarizer_call (ev_call ev)) evs) ≤ 1)%nat.
Proof.
  intros w evs.
  destruct (pipeline_call_budget w (py "c.pdf") empty_state) as (Hocr & Hsum & _).
  split; [exact Hocr|exact Hsum].
Defined.

Lemma summarizer_input_bounded_witness :
  (length (replicate 3000 120%N) ≤ 3000)%nat
  ∧ summary_args = summary_args.
Proof.
  apply (summarizer_input_bounded
           (fixed_world (Ok []) (Ok []) (one_summary (py "s")))
           (py "long.txt")
           (with_file (py "long.txt") (replicate 3005 "x"%byte) empty_state)
           {| ev_call := Summarizer (replicate 3000 120) summary_args;
              ev_raised := None |}).
  - vm_compute. constructor.
  - reflexivity.
Defined.

Lemma txt_summarizer_input_has_no_cr_witness :
  13 ∉ [97; 10; 98; 10].
Proof.
  apply (txt_summarizer_input_has_no_cr
           (fixed_world (Ok []) (Ok []) (one_summary (py "s")))
           (py "dos.txt")
           (with_file (py "dos.txt") ["a"; x0d; x0a; "b"; x0d]%byte empty_state)
           {| ev_call := Summarizer [97; 10; 98; 10] summary_args;
              ev_raised := None |}
           [97; 10; 98; 10] summary_args).
  - vm_compute. reflexivity.
  - vm_compute. constructor.
  - reflexivity.
Defined.

Lemma text_entry_outcome_witness :
  let w := fixed_world (Ok []) (Ok []) (one_summary (py " Minor collision. ")) in
  text_branch w (py "Patient was involved") true empty_state
  = (log (StResultBox (py "Minor collision.")) None
       (log StSuccess None
          (log (Summarizer (py "Patient was involved") summary_args) None
             empty_state)),
     Ok tt).
Proof.
  intros w. rewrite (text_entry_outcome w (py "Patient was involved") empty_state).
  - vm_compute. reflexivity.
  - apply (bool_decide_unpack _). vm_compute. exact I.
Defined.

Lemma upload_shows_what_pipeline_returned_witness :
  let w := fixed_world (Ok []) (Ok []) (one_summary (py "s")) in
  let f := {| up_name := py "empty.txt"; up_bytes := [" "; x0a]%byte |} in
  new_events empty_state (upload_branch w (Some f) true empty_state).1
  = [ {| ev_call := StInfo (py "empty.txt"); ev_raised := None |};
      {| ev_call := StSuccess; ev_raised := None |};
      {| ev_call := StResultBox msg_unreadable; ev_raised := None |} ].
Proof.
  intros w f.
  rewrite (upload_shows_what_pipeline_returned w f empty_state
             (staged w f empty_state) msg_unreadable).
  - vm_compute. reflexivity.
  - vm_compute. reflexivity.
Defined.


(** X14: a text of at most 3000 characters that is not blank reaches the
    summarizer whole, in one call, surrounding whitespace included. *)
Theorem short_text_passed_whole (w : World) text s :
  ¬ whitespace_only text →
  (length text ≤ 3000)%nat →
  new_events s (summarize_claim w text s).1
  = [ {| ev_call := Summarizer text summary_args;
         ev_raised := raised (summarizer w (rng s) text summary_args).2 |} ].
Proof.
  intros Hws Hlen. rewrite summarize_claim_run, decide_False by done.
  rewrite model_summary_events. by rewrite take_ge.
Qed.

Lemma short_text_passed_whole_witness :
  let w := fixed_world (Ok []) (Ok []) (one_summary (py "s")) in
  new_events empty_state (summarize_claim w (py "  hail damage, roof ") empty_state).1
  = [ {| ev_call := Summarizer (py "  hail damage, roof ") summary_args;
         ev_raised := None |} ].
Proof.
  intros w. rewrite (short_text_passed_whole w (py "  hail damage, roof ") empty_state).
  - reflexivity.
  - apply (bool_decide_unpack _). vm_compute. exact I.
  - vm_compute. lia.
Defined.
